(** * OmniViz adapter example: a shallow embedding of [src/main.cpp]

    The program creates a WebGPU instance, requests an adapter through a
    blocking wrapper around the asynchronous request, prints what the
    adapter reports and releases both handles.

    The WebGPU implementation is an external collaborator: it is modelled
    by a record [Api] of answers (a stub), and every call the program makes
    into it is logged in order.  [std::cout] and [std::cerr] are modelled
    as character streams that carry the [basefield] flag set by
    [std::hex] and [std::dec].

    The polling loop of the browser-hosted build need not end: it is run
    for at most a given number of sleeps, and a run that is still polling
    then is reported as such.  [assert] is evaluated unless the build
    defines [NDEBUG]; a false assertion aborts the process. *)

From Stdlib Require Import ZArith NArith List String Ascii Bool Lia.
From Stdlib Require Import HexString DecimalString DecimalPos DecimalN.
Import ListNotations.
Local Open Scope string_scope.

(** ** Build configuration

    The preprocessor symbols the source tests, the symbol [NDEBUG] that
    decides whether [assert] of [<cassert>] is compiled, and the two
    enumerators of [webgpu.h] the source compares against.  The header is
    not part of the repository, so their values are left open. *)
Record Build := {
  emscripten : bool;                        (* __EMSCRIPTEN__ *)
  backend_dawn : bool;                      (* WEBGPU_BACKEND_DAWN *)
  ndebug : bool;                            (* NDEBUG *)
  WGPURequestAdapterStatus_Success : Z;
  WGPUStatus_Success : Z
}.

(** ** Output streams *)
Module Stream.

Inductive Base := Dec | Hex.

Record ostream := {
  basefield : Base;      (* set by std::hex / std::dec, sticky *)
  text : string          (* every character written so far *)
}.

Definition init : ostream := {| basefield := Dec; text := "" |}.

Definition nl : string := String (ascii_of_nat 10) "".

(** Digits of an unsigned number in the stream's base; hexadecimal digits
    are lowercase since [std::uppercase] is never set. *)
Definition hex_digits (n : N) : string :=
  match n with
  | N0 => "0"
  | Npos p => HexString.Raw.of_pos p ""
  end.

Definition dec_digits (n : N) : string :=
  NilZero.string_of_uint (N.to_uint n).

Definition show_unsigned (b : Base) (n : N) : string :=
  match b with
  | Dec => dec_digits n
  | Hex => hex_digits n
  end.

(** A 32-bit [int] (what an unscoped enumeration promotes to): signed in
    decimal, the two's complement bit pattern in hexadecimal. *)
Definition show_int32 (b : Base) (v : Z) : string :=
  match b with
  | Dec => NilZero.string_of_int (Z.to_int v)
  | Hex => hex_digits (Z.to_N (v mod 2 ^ 32))
  end.

(** A pointer: the address in hexadecimal with its base prefix, whatever
    the [basefield]. *)
Definition show_pointer (p : N) : string :=
  match p with
  | N0 => "0"
  | _ => "0x" ++ hex_digits p
  end.

Definition put (s : string) (o : ostream) : ostream :=
  {| basefield := basefield o; text := text o ++ s |}.

Definition setbase (b : Base) (o : ostream) : ostream :=
  {| basefield := b; text := text o |}.

(** What the program inserts into a stream: text, a [uint32_t], an
    enumeration value, a handle, and the manipulators. *)
Inductive Item :=
| Str (s : string)
| UInt32 (n : N)
| Enum (v : Z)
| Pointer (p : N)
| std_hex
| std_dec
| std_endl.

Definition insert (o : ostream) (x : Item) : ostream :=
  match x with
  | Str s => put s o
  | UInt32 n => put (show_unsigned (basefield o) n) o
  | Enum v => put (show_int32 (basefield o) v) o
  | Pointer p => put (show_pointer p) o
  | std_hex => setbase Hex o
  | std_dec => setbase Dec o
  | std_endl => put nl o
  end.

(** The text of a sequence of complete lines. *)
Fixpoint unlines (ls : list string) : string :=
  match ls with
  | [] => ""
  | l :: ls' => l ++ nl ++ unlines ls'
  end.

End Stream.
Import Stream.

Declare Scope stream_scope.
Delimit Scope stream_scope with stream.
Notation "o << x" := (insert o x)
  (at level 50, left associativity) : stream_scope.
Coercion Str : string >-> Item.

(** ** The WebGPU interface as the program sees it *)

(** Handles are addresses; [NULL] is the null pointer. *)
Definition WGPUInstance := N.
Definition WGPUAdapter := N.
Definition NULL : N := 0%N.
Bind Scope N_scope with WGPUInstance WGPUAdapter.

Definition WGPUFeatureName := Z.           (* C enumeration *)

Record WGPURequestAdapterOptions := { opts_nextInChain : N }.

Record WGPULimits := {
  maxTextureDimension1D : N;               (* uint32_t *)
  maxTextureDimension2D : N;
  maxTextureDimension3D : N;
  maxTextureArrayLayers : N
}.

(** The older interface of the browser-hosted build wraps the limits. *)
Record WGPUSupportedLimits := { limits : WGPULimits }.

Record WGPUAdapterInfo := {
  vendor : string;
  architecture : string;
  device : string;
  description : string;
  backendType : Z;                         (* C enumeration *)
  adapterType : Z;                         (* C enumeration *)
  vendorID : N;                            (* uint32_t *)
  deviceID : N
}.

(** What the implementation hands to the completion callback. *)
Record CallbackArgs := {
  cb_status : Z;                           (* WGPURequestAdapterStatus *)
  cb_adapter : WGPUAdapter;
  cb_message : string                      (* empty when none is given *)
}.

(** The stub: the answers of the implementation.  A request may run the
    completion callback inside [wgpuInstanceRequestAdapter] itself
    ([api_request_adapter]) or, in the browser, from the event loop while
    the program sleeps ([api_sleep k] for the sleep number [k]).  The
    interface promises one callback per request; the stub is free to
    deliver none or several. *)
Record Api := {
  api_create_instance : WGPUInstance;
  api_request_adapter : WGPUInstance -> list CallbackArgs;
  api_sleep : nat -> list CallbackArgs;
  api_get_limits : WGPUAdapter -> Z * WGPULimits;
  api_features : WGPUAdapter -> list WGPUFeatureName;
  api_info : WGPUAdapter -> WGPUAdapterInfo
}.

(** The calls made into the implementation, as logged. *)
Inductive ApiCall :=
| CreateInstance
| InstanceRequestAdapter (instance : WGPUInstance)
| EmscriptenSleep (ms : N)
| AdapterGetLimits (a : WGPUAdapter)
| AdapterEnumerateFeatures (a : WGPUAdapter) (counting : bool)
| AdapterGetFeatures (a : WGPUAdapter)
| SupportedFeaturesFreeMembers (fs : list WGPUFeatureName)
| AdapterGetInfo (a : WGPUAdapter)
| AdapterInfoFreeMembers (i : WGPUAdapterInfo)
| InstanceRelease (instance : WGPUInstance)
| AdapterRelease (a : WGPUAdapter).

(** ** Process state and the state monad of the program *)
Record Proc := {
  cout : ostream;
  cerr : ostream;
  calls : list ApiCall                     (* oldest first *)
}.

Definition start : Proc :=
  {| cout := Stream.init; cerr := Stream.init; calls := [] |}.

Definition M (A : Type) : Type := Proc -> A * Proc.

Definition ret {A} (a : A) : M A := fun p => (a, p).
Definition bind {A B} (m : M A) (k : A -> M B) : M B :=
  fun p => let (a, p') := m p in k a p'.

Declare Scope prog_scope.
Delimit Scope prog_scope with prog.
Notation "x <- m ;; k" := (bind m (fun x => k))
  (at level 61, m at next level, right associativity) : prog_scope.
Notation "m ;; k" := (bind m (fun _ => k))
  (at level 61, right associativity) : prog_scope.
Local Open Scope prog_scope.

Local Open Scope stream_scope.

Definition to_cout (f : ostream -> ostream) : M unit :=
  fun p => (tt, {| cout := f (cout p); cerr := cerr p; calls := calls p |}).
Definition to_cerr (f : ostream -> ostream) : M unit :=
  fun p => (tt, {| cout := cout p; cerr := f (cerr p); calls := calls p |}).
Definition call (c : ApiCall) : M unit :=
  fun p => (tt, {| cout := cout p; cerr := cerr p; calls := calls p ++ [c] |}).

Definition when (c : bool) (m : M unit) : M unit :=
  if c then m else ret tt.

Fixpoint for_each {A} (l : list A) (body : A -> M unit) : M unit :=
  match l with
  | [] => ret tt
  | x :: l' => body x ;; for_each l' body
  end.

(** ** requestAdapterSync *)

Record UserData := {
  adapter : WGPUAdapter;
  requestEnded : bool
}.

(** The local [userData] of one activation, with the values it held
    before (most recent first).  The callback reaches the local through
    the pointer it is given as [userdata1]; every store into it goes
    through [store]. *)
Record Frame := {
  userData : UserData;
  earlier : list UserData
}.

Definition history (f : Frame) : list UserData :=
  rev (earlier f) ++ [userData f].

Definition store (u : UserData) (f : Frame) : Frame :=
  {| userData := u; earlier := userData f :: earlier f |}.

Definition set_adapter (a : WGPUAdapter) (u : UserData) : UserData :=
  {| adapter := a; requestEnded := requestEnded u |}.
Definition set_requestEnded (v : bool) (u : UserData) : UserData :=
  {| adapter := adapter u; requestEnded := v |}.

(** The completion callback.  The two lambdas of the source differ only
    in the C type of [message]. *)
Definition callback (b : Build) (status : Z) (adapter : WGPUAdapter)
    (message : string) (userdata1 : UserData) : M UserData :=
  u <- (if (status =? WGPURequestAdapterStatus_Success b)%Z
        then ret (set_adapter adapter userdata1)
        else
          to_cout (fun cout =>
            cout << "Could not get WebGPU adapter: " << message << std_endl) ;;
          ret userdata1) ;;
  ret (set_requestEnded true u).

(** The implementation running the registered callback, each time on the
    [userData] the registered pointer designates. *)
Fixpoint run_callbacks (b : Build) (l : list CallbackArgs) (f : Frame)
    : M Frame :=
  match l with
  | [] => ret f
  | a :: l' =>
      u <- callback b (cb_status a) (cb_adapter a) (cb_message a)
             (userData f) ;;
      run_callbacks b l' (store u f)
  end.

Definition wgpuInstanceRequestAdapter (b : Build) (api : Api)
    (instance : WGPUInstance) (options : WGPURequestAdapterOptions)
    (f : Frame) : M Frame :=
  call (InstanceRequestAdapter instance) ;;
  run_callbacks b (api_request_adapter api instance) f.

Definition emscripten_sleep (b : Build) (api : Api) (k : nat) (ms : N)
    (f : Frame) : M Frame :=
  call (EmscriptenSleep ms) ;;
  run_callbacks b (api_sleep api k) f.

(** [while (!userData.requestEnded) emscripten_sleep(100);] started at
    sleep number [k].  The flag says whether the loop was left; [false]
    means that it is still turning after [fuel] sleeps. *)
Fixpoint wait_loop (b : Build) (api : Api) (fuel k : nat) (f : Frame)
    : M (bool * Frame) :=
  if requestEnded (userData f) then ret (true, f)
  else
    match fuel with
    | O => ret (false, f)
    | S fuel' =>
        f' <- emscripten_sleep b api k 100 f ;;
        wait_loop b api fuel' (S k) f'
    end.

Inductive Status := Completed | AssertionFailed | StillWaiting.

(** The function up to and including [assert(userData.requestEnded)],
    with the frame as it stands there: the assertion is passed (it holds,
    or [NDEBUG] has compiled it out), it failed, or the loop before it is
    still polling. *)
Definition requestAdapterSync_body (b : Build) (api : Api) (fuel : nat)
    (instance : WGPUInstance) (options : WGPURequestAdapterOptions)
    : M (Status * Frame) :=
  let frame :=
    {| userData := {| adapter := NULL; requestEnded := false |};
       earlier := [] |} in
  r <- (if emscripten b then
          f <- wgpuInstanceRequestAdapter b api instance options frame ;;
          wait_loop b api fuel 0 f
        else
          f <- wgpuInstanceRequestAdapter b api instance options frame ;;
          ret (true, f)) ;;
  let (left, f) := (r : bool * Frame) in
  if left then
    if ndebug b then ret (Completed, f)
    else if requestEnded (userData f) then ret (Completed, f)
    else ret (AssertionFailed, f)
  else ret (StillWaiting, f).

Inductive Outcome (A : Type) :=
| Returned (a : A)
| Aborted
| Waiting.
Arguments Returned {A} a.
Arguments Aborted {A}.
Arguments Waiting {A}.

Definition requestAdapterSync (b : Build) (api : Api) (fuel : nat)
    (instance : WGPUInstance) (options : WGPURequestAdapterOptions)
    : M (Outcome WGPUAdapter) :=
  r <- requestAdapterSync_body b api fuel instance options ;;
  match r with
  | (Completed, f) => ret (Returned (adapter (userData f)))
  | (AssertionFailed, _) => ret Aborted
  | (StillWaiting, _) => ret Waiting
  end.

(** ** inspectAdapter *)

Definition zero_limits : WGPULimits :=
  {| maxTextureDimension1D := 0; maxTextureDimension2D := 0;
     maxTextureDimension3D := 0; maxTextureArrayLayers := 0 |}.

(** The query fills the structure it is given and returns a code: a
    [WGPUStatus] for Dawn, a truth value for the other implementations. *)
Definition wgpuAdapterGetLimits (api : Api) (a : WGPUAdapter)
    (out : WGPULimits) : M (Z * WGPULimits) :=
  call (AdapterGetLimits a) ;;
  ret (api_get_limits api a).

(** Browser-hosted interface: the number of features is returned, and
    when a buffer is given the features are written at its start. *)
Definition wgpuAdapterEnumerateFeatures (api : Api) (a : WGPUAdapter)
    (buffer : option (list WGPUFeatureName))
    : M (nat * option (list WGPUFeatureName)) :=
  call (AdapterEnumerateFeatures a
          (match buffer with None => true | Some _ => false end)) ;;
  let fs := api_features api a in
  ret (List.length fs,
       option_map (fun buf => (fs ++ skipn (List.length fs) buf)%list) buffer).

Record WGPUSupportedFeatures := {
  featureCount : nat;
  features : list WGPUFeatureName
}.

Definition wgpuAdapterGetFeatures (api : Api) (a : WGPUAdapter)
    : M WGPUSupportedFeatures :=
  call (AdapterGetFeatures a) ;;
  let fs := api_features api a in
  ret {| featureCount := List.length fs; features := fs |}.

Definition wgpuSupportedFeaturesFreeMembers (s : WGPUSupportedFeatures)
    : M unit :=
  call (SupportedFeaturesFreeMembers (features s)).

Definition wgpuAdapterGetInfo (api : Api) (a : WGPUAdapter)
    : M WGPUAdapterInfo :=
  call (AdapterGetInfo a) ;;
  ret (api_info api a).

Definition wgpuAdapterInfoFreeMembers (i : WGPUAdapterInfo) : M unit :=
  call (AdapterInfoFreeMembers i).

Definition print_limits (l : WGPULimits) : M unit :=
  to_cout (fun cout => cout << "Adapter limits:" << std_endl) ;;
  to_cout (fun cout => cout << " - maxTextureDimension1D: "
                            << UInt32 (maxTextureDimension1D l) << std_endl) ;;
  to_cout (fun cout => cout << " - maxTextureDimension2D: "
                            << UInt32 (maxTextureDimension2D l) << std_endl) ;;
  to_cout (fun cout => cout << " - maxTextureDimension3D: "
                            << UInt32 (maxTextureDimension3D l) << std_endl) ;;
  to_cout (fun cout => cout << " - maxTextureArrayLayers: "
                            << UInt32 (maxTextureArrayLayers l) << std_endl).

(** The features section: the loop
    [for (size_t i = 0; i < count; ++i)] between [std::hex] and
    [std::dec]. *)
Definition print_features (count : nat) (fs : list WGPUFeatureName)
    : M unit :=
  to_cout (fun cout => cout << "Adapter features:" << std_endl) ;;
  to_cout (fun cout => cout << std_hex) ;;
  for_each (seq 0 count) (fun i =>
    to_cout (fun cout => cout << " - 0x" << Enum (nth i fs 0%Z) << std_endl)) ;;
  to_cout (fun cout => cout << std_dec).

Definition inspectAdapter (b : Build) (api : Api) (adapter : WGPUAdapter)
    : M unit :=
  (if emscripten b then
     let supportedLimits := {| limits := zero_limits |} in
     r <- wgpuAdapterGetLimits api adapter (limits supportedLimits) ;;
     let supportedLimits := {| limits := snd r |} in
     let success := negb (fst r =? 0)%Z in
     when success (print_limits (limits supportedLimits)) ;;
     n <- wgpuAdapterEnumerateFeatures api adapter None ;;
     let featureCount := fst n in
     let vector := repeat 0%Z featureCount in
     r' <- wgpuAdapterEnumerateFeatures api adapter (Some vector) ;;
     let vector := match snd r' with Some v => v | None => vector end in
     print_features featureCount vector
   else
     let supportedLimits := zero_limits in
     r <- wgpuAdapterGetLimits api adapter supportedLimits ;;
     let supportedLimits := snd r in
     let success :=
       if backend_dawn b then (fst r =? WGPUStatus_Success b)%Z
       else negb (fst r =? 0)%Z in
     when success (print_limits supportedLimits) ;;
     supported <- wgpuAdapterGetFeatures api adapter ;;
     print_features (featureCount supported) (features supported) ;;
     wgpuSupportedFeaturesFreeMembers supported) ;;
  properties <- wgpuAdapterGetInfo api adapter ;;
  to_cout (fun cout => cout << "Adapter properties:" << std_endl) ;;
  to_cout (fun cout => cout << " - vendorID: "
                            << UInt32 (vendorID properties) << std_endl) ;;
  to_cout (fun cout => cout << " - vendorName: "
                            << vendor properties << std_endl) ;;
  to_cout (fun cout => cout << " - architecture: "
                            << architecture properties << std_endl) ;;
  to_cout (fun cout => cout << " - deviceID: "
                            << UInt32 (deviceID properties) << std_endl) ;;
  to_cout (fun cout => cout << " - name: "
                            << device properties << std_endl) ;;
  to_cout (fun cout => cout << " - driverDescription: "
                            << description properties << std_endl) ;;
  to_cout (fun cout => cout << std_hex) ;;
  to_cout (fun cout => cout << " - adapterType: 0x"
                            << Enum (adapterType properties) << std_endl) ;;
  to_cout (fun cout => cout << " - backendType: 0x"
                            << Enum (backendType properties) << std_endl) ;;
  to_cout (fun cout => cout << std_dec) ;;
  wgpuAdapterInfoFreeMembers properties.

(** ** main *)

Definition wgpuCreateInstance (api : Api) : M WGPUInstance :=
  call CreateInstance ;;
  ret (api_create_instance api).

Definition wgpuInstanceRelease (i : WGPUInstance) : M unit :=
  call (InstanceRelease i).
Definition wgpuAdapterRelease (a : WGPUAdapter) : M unit :=
  call (AdapterRelease a).

(** How the process ends: [return] from [main] with a status, [abort]
    from the failed assertion, or still waiting for the callback. *)
Inductive Exit := Exited (status : Z) | Abort | Hang.

Definition main (b : Build) (api : Api) (fuel : nat) : M Exit :=
  instance <- wgpuCreateInstance api ;;
  if (instance =? NULL)%N then
    to_cerr (fun cerr => cerr << "Could not initialize WebGPU!" << std_endl) ;;
    ret (Exited 1)
  else
    to_cout (fun cout => cout << "WGPU instance: "
                              << Pointer instance << std_endl) ;;
    to_cout (fun cout => cout << "Requesting adapter..." << std_endl) ;;
    let adapterOpts := {| opts_nextInChain := NULL |} in
    r <- requestAdapterSync b api fuel instance adapterOpts ;;
    match r with
    | Returned adapter =>
        to_cout (fun cout => cout << "Got adapter: "
                                  << Pointer adapter << std_endl) ;;
        inspectAdapter b api adapter ;;
        wgpuInstanceRelease instance ;;
        wgpuAdapterRelease adapter ;;
        ret (Exited 0)
    | Aborted => ret Abort
    | Waiting => ret Hang
    end.

(** ** Stubs

    Builds with the enumerator values of their headers, and a stub
    implementation whose answers are fixed. *)
Definition native : Build :=
  {| emscripten := false; backend_dawn := false; ndebug := false;
     WGPURequestAdapterStatus_Success := 1; WGPUStatus_Success := 1 |}.
Definition dawn : Build :=
  {| emscripten := false; backend_dawn := true; ndebug := false;
     WGPURequestAdapterStatus_Success := 1; WGPUStatus_Success := 1 |}.
Definition browser : Build :=
  {| emscripten := true; backend_dawn := false; ndebug := false;
     WGPURequestAdapterStatus_Success := 0; WGPUStatus_Success := 1 |}.
(** The native build with assertions compiled out. *)
Definition native_ndebug : Build :=
  {| emscripten := false; backend_dawn := false; ndebug := true;
     WGPURequestAdapterStatus_Success := 1; WGPUStatus_Success := 1 |}.

Definition stub_limits : WGPULimits :=
  {| maxTextureDimension1D := 8192; maxTextureDimension2D := 8192;
     maxTextureDimension3D := 2048; maxTextureArrayLayers := 256 |}.

Definition stub_info : WGPUAdapterInfo :=
  {| vendor := "acme"; architecture := "arch"; device := "gpu0";
     description := "driver 1.0"; backendType := 6; adapterType := 1;
     vendorID := 4318; deviceID := 7171 |}.

Definition stub (instance : WGPUInstance) (requested : list CallbackArgs)
    (slept : nat -> list CallbackArgs) (limits_code : Z) : Api :=
  {| api_create_instance := instance;
     api_request_adapter := fun _ => requested;
     api_sleep := slept;
     api_get_limits := fun _ => (limits_code, stub_limits);
     api_features := fun _ => [1; 42]%Z;
     api_info := fun _ => stub_info |}.

Definition found (status : Z) (a : WGPUAdapter) (m : string) : CallbackArgs :=
  {| cb_status := status; cb_adapter := a; cb_message := m |}.

(** * Vocabulary of the properties *)

(** ** The request *)

Definition fresh_userData : UserData :=
  {| adapter := NULL; requestEnded := false |}.

Definition fresh_frame : Frame :=
  {| userData := fresh_userData; earlier := [] |}.

(** The successive values of the completion flag in an activation. *)
Definition flags (f : Frame) : list bool := map requestEnded (history f).

(** Number of places where a flag [x] is followed by a flag [y]. *)
Fixpoint changes (x y : bool) (l : list bool) : nat :=
  match l with
  | a :: (b :: _) as t =>
      (if Bool.eqb a x && Bool.eqb b y then 1 else 0) + changes x y t
  | _ => 0
  end.

(** Callbacks delivered by the request call and the first [n] sleeps. *)
Definition callbacks_until (api : Api) (i : WGPUInstance) (n : nat)
    : list CallbackArgs :=
  (api_request_adapter api i ++ flat_map (api_sleep api) (seq 0 n))%list.

(** One run of the callback on the arguments chosen by the
    implementation. *)
Definition deliver (b : Build) (args : CallbackArgs) (u : UserData)
    : M UserData :=
  callback b (cb_status args) (cb_adapter args) (cb_message args) u.

(** The line written for a failed request. *)
Definition diagnostic (message : string) : string :=
  "Could not get WebGPU adapter: " ++ message ++ nl.

(** [needle] occurs in [hay]. *)
Definition mentions (needle hay : string) : bool :=
  match index 0 needle hay with Some _ => true | None => false end.

(** The handle left in [userData] by a sequence of runs of the callback,
    [a] being the handle stored before: a run reporting success stores its
    handle, any other run leaves the stored handle as it is. *)
Fixpoint last_success (b : Build) (l : list CallbackArgs) (a : WGPUAdapter)
    : WGPUAdapter :=
  match l with
  | [] => a
  | c :: l' =>
      last_success b l'
        (if (cb_status c =? WGPURequestAdapterStatus_Success b)%Z
         then cb_adapter c else a)
  end.

(** The lines written by a sequence of runs of the callback. *)
Fixpoint diagnostics (b : Build) (l : list CallbackArgs) : string :=
  match l with
  | [] => ""
  | c :: l' =>
      (if (cb_status c =? WGPURequestAdapterStatus_Success b)%Z
       then "" else diagnostic (cb_message c))
      ++ diagnostics b l'
  end.

(** ** Process states *)

(** [p] after the calls [cs]. *)
Definition logged (cs : list ApiCall) (p : Proc) : Proc :=
  {| cout := cout p; cerr := cerr p; calls := (calls p ++ cs)%list |}.

Definition with_cout (o : ostream) (p : Proc) : Proc :=
  {| cout := o; cerr := cerr p; calls := calls p |}.

(** [p] after writing [s] to the output, leaving the stream in [base]. *)
Definition printed (base : Base) (s : string) (p : Proc) : Proc :=
  with_cout {| basefield := base; text := text (cout p) ++ s |} p.

(** What inserting an item appends and the base it leaves. *)
Definition render (base : Base) (x : Item) : string :=
  match x with
  | Str s => s
  | UInt32 n => show_unsigned base n
  | Enum v => show_int32 base v
  | Pointer p => show_pointer p
  | std_endl => nl
  | std_hex | std_dec => ""
  end.

Definition next_base (base : Base) (x : Item) : Base :=
  match x with
  | std_hex => Hex
  | std_dec => Dec
  | _ => base
  end.

(** ** The calls *)

Definition sleeps (n : nat) : list ApiCall := repeat (EmscriptenSleep 100) n.

Definition is_request (c : ApiCall) : bool :=
  match c with InstanceRequestAdapter _ => true | _ => false end.
Definition is_instance_release (c : ApiCall) : bool :=
  match c with InstanceRelease _ => true | _ => false end.
Definition is_adapter_release (c : ApiCall) : bool :=
  match c with AdapterRelease _ => true | _ => false end.
Definition is_features_free (c : ApiCall) : bool :=
  match c with SupportedFeaturesFreeMembers _ => true | _ => false end.
Definition is_inspection (c : ApiCall) : bool :=
  match c with
  | AdapterGetLimits _ | AdapterEnumerateFeatures _ _ | AdapterGetFeatures _
  | SupportedFeaturesFreeMembers _ | AdapterGetInfo _
  | AdapterInfoFreeMembers _ => true
  | _ => false
  end.

Definition is_info_free (c : ApiCall) : bool :=
  match c with AdapterInfoFreeMembers _ => true | _ => false end.

(** A call that takes an adapter to query takes [a]. *)
Definition inspects (a : WGPUAdapter) (c : ApiCall) : Prop :=
  match c with
  | AdapterGetLimits x | AdapterEnumerateFeatures x _ | AdapterGetFeatures x
  | AdapterGetInfo x => x = a
  | _ => True
  end.

(** Index of the first call of a class. *)
Fixpoint position (f : ApiCall -> bool) (l : list ApiCall) : option nat :=
  match l with
  | [] => None
  | c :: l' => if f c then Some 0 else option_map S (position f l')
  end.

(** The calls of inspectAdapter on the handle [a]. *)
Definition feature_calls (b : Build) (api : Api) (a : WGPUAdapter)
    : list ApiCall :=
  if emscripten b
  then [AdapterEnumerateFeatures a true; AdapterEnumerateFeatures a false]
  else [AdapterGetFeatures a; SupportedFeaturesFreeMembers (api_features api a)].

Definition inspect_calls (b : Build) (api : Api) (a : WGPUAdapter)
    : list ApiCall :=
  (AdapterGetLimits a :: feature_calls b api a
   ++ [AdapterGetInfo a; AdapterInfoFreeMembers (api_info api a)])%list.

(** The calls of a whole run that got the handle [h] after [n] sleeps. *)
Definition run_calls (b : Build) (api : Api) (n : nat) (h : WGPUAdapter)
    : list ApiCall :=
  (CreateInstance :: InstanceRequestAdapter (api_create_instance api)
   :: sleeps n
   ++ inspect_calls b api h
   ++ [InstanceRelease (api_create_instance api); AdapterRelease h])%list.

(** ** The report *)

(** The value of [success] in each of the three builds, from the code
    returned by the limits query. *)
Definition limits_success (b : Build) (code : Z) : bool :=
  if emscripten b then negb (code =? 0)%Z
  else if backend_dawn b then (code =? WGPUStatus_Success b)%Z
  else negb (code =? 0)%Z.

(** The lines of the three sections. *)
Definition limits_lines (base : Base) (l : WGPULimits) : list string :=
  [ "Adapter limits:";
    " - maxTextureDimension1D: "
      ++ show_unsigned base (maxTextureDimension1D l);
    " - maxTextureDimension2D: "
      ++ show_unsigned base (maxTextureDimension2D l);
    " - maxTextureDimension3D: "
      ++ show_unsigned base (maxTextureDimension3D l);
    " - maxTextureArrayLayers: "
      ++ show_unsigned base (maxTextureArrayLayers l) ].

Definition feature_line (f : WGPUFeatureName) : string :=
  " - 0x" ++ hex_digits (Z.to_N (f mod 2 ^ 32)).

Definition feature_lines (fs : list WGPUFeatureName) : list string :=
  "Adapter features:" :: map feature_line fs.

Definition info_lines (i : WGPUAdapterInfo) : list string :=
  [ "Adapter properties:";
    " - vendorID: " ++ dec_digits (vendorID i);
    " - vendorName: " ++ vendor i;
    " - architecture: " ++ architecture i;
    " - deviceID: " ++ dec_digits (deviceID i);
    " - name: " ++ device i;
    " - driverDescription: " ++ description i;
    " - adapterType: 0x" ++ hex_digits (Z.to_N (adapterType i mod 2 ^ 32));
    " - backendType: 0x" ++ hex_digits (Z.to_N (backendType i mod 2 ^ 32)) ].

(** The output of inspectAdapter after it has run from [p]. *)
Definition report_text (b : Build) (api : Api) (a : WGPUAdapter) (p : Proc)
    : string :=
  text (cout (snd (inspectAdapter b api a p))).

(** The number a string of decimal digits denotes. *)
Definition dec_value (s : string) : option N :=
  option_map N.of_uint (NilZero.uint_of_string s).

(** Lowercase hexadecimal digits. *)
Definition is_lower_hex_digit (c : ascii) : bool :=
  match index 0 (String c "") "0123456789abcdef" with
  | Some _ => true
  | None => false
  end.

Fixpoint all_chars (f : ascii -> bool) (s : string) : bool :=
  match s with
  | EmptyString => true
  | String c s' => f c && all_chars f s'
  end.

(** ** The entry point *)

Definition adapterOpts : WGPURequestAdapterOptions :=
  {| opts_nextInChain := NULL |}.

(** The process when [main] issues the request. *)
Definition before_request (api : Api) (p : Proc) : Proc :=
  logged [CreateInstance]
    (printed (basefield (cout p))
       (unlines [ "WGPU instance: " ++ show_pointer (api_create_instance api);
                  "Requesting adapter..." ])
       p).

(** The process at the end of [main] once the request has returned [h]
    in process state [q]. *)
Definition after_request (b : Build) (api : Api) (h : WGPUAdapter)
    (q : Proc) : Proc :=
  logged (inspect_calls b api h
          ++ [InstanceRelease (api_create_instance api); AdapterRelease h])
    (printed Dec
       (unlines
          (("Got adapter: " ++ show_pointer h)
           :: (if limits_success b (fst (api_get_limits api h))
               then limits_lines (basefield (cout q))
                      (snd (api_get_limits api h))
               else [])
           ++ feature_lines (api_features api h)
           ++ info_lines (api_info api h)))
       q).

(** * Runs of the model *)

Example native_run_calls :
  calls (snd (main native (stub 5 [found 1 7 ""] (fun _ => []) 1) 0 start))
  = [CreateInstance; InstanceRequestAdapter 5; AdapterGetLimits 7;
     AdapterGetFeatures 7; SupportedFeaturesFreeMembers [1; 42]%Z;
     AdapterGetInfo 7; AdapterInfoFreeMembers stub_info;
     InstanceRelease 5; AdapterRelease 7].
Proof. reflexivity. Qed.

Example browser_run_waits :
  let slept k := if Nat.eqb k 2 then [found 0 7 ""] else [] in
  fst (main browser (stub 5 [] slept 0) 2 start) = Hang /\
  fst (main browser (stub 5 [] slept 0) 3 start) = Exited 0.
Proof. split; reflexivity. Qed.

Example native_run_aborts :
  fst (main native (stub 5 [] (fun _ => []) 1) 0 start) = Abort.
Proof. reflexivity. Qed.

(** * Properties *)

(** ** Strings and streams *)

Lemma append_nil_r (s : string) : s ++ "" = s.
Proof. induction s as [|c s IH]; simpl; [reflexivity | now rewrite IH]. Qed.

Lemma append_assoc (s t u : string) : (s ++ t) ++ u = s ++ t ++ u.
Proof. induction s as [|c s IH]; simpl; [reflexivity | now rewrite IH]. Qed.

Lemma unlines_app (l1 l2 : list string) :
  unlines (l1 ++ l2) = unlines l1 ++ unlines l2.
Proof.
  induction l1 as [|l l1 IH]; simpl; [reflexivity|].
  now rewrite IH, !append_assoc.
Qed.

(** ** The request *)

Lemma callback_run b s a m u p :
  callback b s a m u p =
  if (s =? WGPURequestAdapterStatus_Success b)%Z
  then (set_requestEnded true (set_adapter a u), p)
  else (set_requestEnded true u,
        {| cout := cout p << "Could not get WebGPU adapter: " << m
                          << std_endl;
           cerr := cerr p; calls := calls p |}).
Proof. unfold callback, bind. destruct (_ =? _)%Z; reflexivity. Qed.

Lemma callback_sets_flag b s a m u p :
  requestEnded (fst (callback b s a m u p)) = true.
Proof. rewrite callback_run. destruct (_ =? _)%Z; reflexivity. Qed.

Lemma callback_keeps_calls b s a m u p :
  calls (snd (callback b s a m u p)) = calls p /\
  cerr (snd (callback b s a m u p)) = cerr p.
Proof. rewrite callback_run. destruct (_ =? _)%Z; split; reflexivity. Qed.

Lemma history_store u f : history (store u f) = (history f ++ [u])%list.
Proof. reflexivity. Qed.

Lemma flags_store u f : flags (store u f) = (flags f ++ [requestEnded u])%list.
Proof. unfold flags. now rewrite history_store, map_app. Qed.

Lemma repeat_snoc {A} (x : A) n : (repeat x n ++ [x])%list = repeat x (S n).
Proof. induction n; simpl; [reflexivity | now rewrite IHn]. Qed.

Lemma run_callbacks_flags b l : forall f p,
  flags (fst (run_callbacks b l f p))
  = (flags f ++ repeat true (List.length l))%list
  /\ calls (snd (run_callbacks b l f p)) = calls p
  /\ cerr (snd (run_callbacks b l f p)) = cerr p.
Proof.
  induction l as [|a l IH]; intros f p; simpl.
  - now rewrite app_nil_r.
  - unfold bind.
    pose proof (callback_sets_flag b (cb_status a) (cb_adapter a)
                  (cb_message a) (userData f) p) as Hset.
    pose proof (callback_keeps_calls b (cb_status a) (cb_adapter a)
                  (cb_message a) (userData f) p) as [Hc He].
    destruct (callback _ _ _ _ _ p) as [u p1]; simpl in *.
    destruct (IH (store u f) p1) as (Hf & Hc' & He').
    rewrite Hf, Hc', He', flags_store, Hset, <- app_assoc.
    auto.
Qed.

Lemma flags_last f :
  exists l, flags f = (l ++ [requestEnded (userData f)])%list
            /\ List.length l = List.length (earlier f).
Proof.
  exists (map requestEnded (rev (earlier f))). unfold flags, history.
  now rewrite map_app, length_map, length_rev.
Qed.

Lemma wait_loop_spec b api : forall fuel k f p,
  exists n, n <= fuel /\
    let r := wait_loop b api fuel k f p in
    calls (snd r) = (calls p ++ sleeps n)%list
    /\ cerr (snd r) = cerr p
    /\ flags (snd (fst r))
       = (flags f ++ repeat true
            (List.length (flat_map (api_sleep api) (seq k n))))%list
    /\ (fst (fst r) = true -> requestEnded (userData (snd (fst r))) = true)
    /\ (fst (fst r) = false ->
        n = fuel /\ requestEnded (userData (snd (fst r))) = false).
Proof.
  induction fuel as [|fuel IH]; intros k f p; simpl;
    destruct (requestEnded (userData f)) eqn:E.
  1-3: exists 0; simpl; rewrite !app_nil_r;
    repeat split; auto; try lia; discriminate.
  unfold bind, emscripten_sleep, call; simpl. unfold bind.
  set (p0 := {| cout := cout p; cerr := cerr p;
                calls := (calls p ++ [EmscriptenSleep 100])%list |}).
  destruct (run_callbacks_flags b (api_sleep api k) f p0) as (Hf & Hc & He).
  destruct (run_callbacks b (api_sleep api k) f p0) as [f1 p1]; simpl in *.
  destruct (IH (S k) f1 p1) as (n & Hn & Hcalls & Hcerr & Hflags & Ht & Hw).
  exists (S n). split; [lia|]. simpl.
  rewrite Hcalls, Hcerr, Hflags, Hc, He, Hf, length_app, repeat_app.
  rewrite <- !app_assoc. repeat split; auto;
    match goal with Hs : fst _ = false |- _ => apply Hw in Hs end;
    intuition lia.
Qed.

(** What one activation does, whatever the build and the stub: one request
    call, then [n] sleeps; the flag is false at first and true after each
    run of the callback. *)
Lemma body_spec b api fuel i o p :
  exists n, n <= fuel /\ (emscripten b = false -> n = 0) /\
    let r := requestAdapterSync_body b api fuel i o p in
    calls (snd r) = (calls p ++ InstanceRequestAdapter i :: sleeps n)%list
    /\ cerr (snd r) = cerr p
    /\ flags (snd (fst r))
       = false :: repeat true (List.length (callbacks_until api i n))
    /\ (fst (fst r) = Completed ->
        emscripten b = true \/ ndebug b = false ->
        requestEnded (userData (snd (fst r))) = true)
    /\ (fst (fst r) = AssertionFailed ->
        emscripten b = false /\ ndebug b = false
        /\ requestEnded (userData (snd (fst r))) = false)
    /\ (fst (fst r) = StillWaiting ->
        emscripten b = true /\ n = fuel
        /\ requestEnded (userData (snd (fst r))) = false).
Proof.
  unfold requestAdapterSync_body, wgpuInstanceRequestAdapter, call.
  set (f0 := {| userData := {| adapter := NULL; requestEnded := false |};
                earlier := [] |}).
  set (p0 := {| cout := cout p; cerr := cerr p;
                calls := (calls p ++ [InstanceRequestAdapter i])%list |}).
  destruct (run_callbacks_flags b (api_request_adapter api i) f0 p0)
    as (Hf & Hc & He).
  unfold callbacks_until.
  destruct (emscripten b) eqn:Eb; unfold bind; simpl; fold p0;
    destruct (run_callbacks b (api_request_adapter api i) f0 p0) as [f1 p1];
    simpl in *.
  - destruct (wait_loop_spec b api fuel 0 f1 p1)
      as (n & Hn & Hcalls & Hcerr & Hflags & Ht & Hw).
    exists n. split; [assumption|]. split; [discriminate|].
    destruct (wait_loop b api fuel 0 f1 p1) as [[left f2] p2]; simpl in *.
    assert (Hfl : flags f2 = false :: repeat true
              (List.length (api_request_adapter api i ++
                            flat_map (api_sleep api) (seq 0 n))%list)).
    { rewrite Hflags, Hf, length_app, repeat_app. reflexivity. }
    assert (Hcl : calls p2
                  = (calls p ++ InstanceRequestAdapter i :: sleeps n)%list).
    { rewrite Hcalls, Hc, <- app_assoc. reflexivity. }
    destruct left.
    + rewrite (Ht eq_refl). destruct (ndebug b); simpl;
        rewrite ?Hcerr, ?He; repeat split; auto; discriminate.
    + simpl. rewrite ?Hcerr, ?He. repeat split; auto; try discriminate;
        apply Hw; reflexivity.
  - exists 0. split; [lia|]. split; [reflexivity|]. simpl.
    rewrite app_nil_r.
    destruct (ndebug b) eqn:En;
      [|destruct (requestEnded (userData f1)) eqn:E1]; simpl;
      rewrite ?Hc, ?He, ?Hf, <- ?app_assoc;
      repeat split; auto; try discriminate.
    intros _ [H | H]; discriminate.
Qed.

Lemma changes_cons x y a b t :
  changes x y (a :: b :: t)
  = (if Bool.eqb a x && Bool.eqb b y then 1 else 0) + changes x y (b :: t).
Proof. reflexivity. Qed.

Lemma changes_all_true x y c :
  x && y = false -> changes x y (repeat true c) = 0.
Proof.
  intros H. induction c as [|c IH]; [reflexivity|].
  destruct c as [|c]; [reflexivity|].
  change (repeat true (S (S c))) with (true :: true :: repeat true c).
  change (repeat true (S c)) with (true :: repeat true c) in IH.
  rewrite changes_cons, IH.
  destruct x, y; try discriminate; reflexivity.
Qed.

Lemma changes_false_then_true c :
  changes false true (false :: repeat true c) <= 1
  /\ changes true false (false :: repeat true c) = 0.
Proof.
  destruct c as [|c]; [simpl; split; lia|].
  change (repeat true (S c)) with (true :: repeat true c).
  rewrite !changes_cons.
  rewrite !(changes_all_true _ _ (S c)) by reflexivity. simpl. split; lia.
Qed.

Lemma no_request_in_sleeps n : filter is_request (sleeps n) = [].
Proof. induction n; simpl; auto. Qed.

(** After the polling loop of the browser-hosted build, and in the builds
    that compile the assertion, a call that returns has seen the callback
    run: the assertion was reached with [requestEnded] true, the callback
    has stored into [userData] at least once, and the value returned is the
    [adapter] field of that record. *)
Lemma checked_return_follows_callback b api fuel i o p a p' :
  emscripten b = true \/ ndebug b = false ->
  requestAdapterSync b api fuel i o p = (Returned a, p') ->
  exists f,
    requestAdapterSync_body b api fuel i o p = (Completed, f, p')
    /\ requestEnded (userData f) = true
    /\ earlier f <> []
    /\ a = adapter (userData f).
Proof.
  unfold requestAdapterSync, bind. intros Hchecked H.
  destruct (body_spec b api fuel i o p)
    as (n & _ & _ & _ & _ & Hfl & Hdone & _).
  destruct (requestAdapterSync_body b api fuel i o p) as [[st f] p1].
  simpl in *. destruct st; inversion H; subst.
  exists f. specialize (Hdone eq_refl Hchecked). repeat split; auto.
  intros Hnil. destruct (flags_last f) as (l & Hl & Hlen).
  rewrite Hnil in Hlen. destruct l; [|discriminate].
  rewrite Hl, Hdone in Hfl. discriminate.
Qed.

(** Both builds do return: a native stub that calls back inside the
    request, and a browser stub that calls back during the third sleep. *)
Lemma checked_return_follows_callback_witness :
  (exists f,
     requestAdapterSync_body native (stub 5 [found 1 7 ""] (fun _ => []) 1)
       0 5 {| opts_nextInChain := NULL |} start
     = (Completed, f,
        snd (requestAdapterSync native (stub 5 [found 1 7 ""] (fun _ => []) 1)
               0 5 {| opts_nextInChain := NULL |} start))
     /\ requestEnded (userData f) = true
     /\ earlier f <> []
     /\ 7%N = adapter (userData f))
  /\
  (exists f,
     requestAdapterSync_body browser
       (stub 5 [] (fun k => if Nat.eqb k 2 then [found 0 7 ""] else []) 1)
       3 5 {| opts_nextInChain := NULL |} start
     = (Completed, f,
        snd (requestAdapterSync browser
               (stub 5 [] (fun k => if Nat.eqb k 2 then [found 0 7 ""] else [])
                  1)
               3 5 {| opts_nextInChain := NULL |} start))
     /\ requestEnded (userData f) = true
     /\ earlier f <> []
     /\ 7%N = adapter (userData f)).
Proof.
  split.
  - apply (checked_return_follows_callback native
             (stub 5 [found 1 7 ""] (fun _ => []) 1) 0 5
             {| opts_nextInChain := NULL |} start 7%N).
    + right; reflexivity.
    + reflexivity.
  - apply (checked_return_follows_callback browser
             (stub 5 [] (fun k => if Nat.eqb k 2 then [found 0 7 ""] else [])
                1)
             3 5 {| opts_nextInChain := NULL |} start 7%N).
    + left; reflexivity.
    + reflexivity.
Defined.

(** The assertion cannot fail after the polling loop, and a native build
    never waits. *)
Lemma assertion_holds_after_polling b api fuel i o p :
  emscripten b = true ->
  fst (requestAdapterSync b api fuel i o p) <> Aborted.
Proof.
  intros Eb. unfold requestAdapterSync, bind.
  destruct (body_spec b api fuel i o p)
    as (n & _ & _ & _ & _ & _ & _ & Hfail & _).
  destruct (requestAdapterSync_body b api fuel i o p) as [[st f] p1].
  simpl in *. destruct st; simpl; try discriminate.
  destruct (Hfail eq_refl). congruence.
Qed.

Lemma native_request_never_waits b api fuel i o p :
  emscripten b = false ->
  fst (requestAdapterSync b api fuel i o p) <> Waiting.
Proof.
  intros Eb. unfold requestAdapterSync, bind.
  destruct (body_spec b api fuel i o p)
    as (n & _ & _ & _ & _ & _ & _ & _ & Hwait).
  destruct (requestAdapterSync_body b api fuel i o p) as [[st f] p1].
  simpl in *. destruct st; simpl; try discriminate.
  destruct (Hwait eq_refl). congruence.
Qed.

(** The call does return once the callback has been run: on a native
    build when the request call runs it, in the browser when it has run by
    the [n]-th sleep and [n] sleeps are allowed. *)
Lemma last_after_false c d : last (false :: repeat true (S c)) d = true.
Proof.
  induction c as [|c IH]; [reflexivity|].
  change (repeat true (S (S c))) with (true :: repeat true (S c)).
  change (last (false :: true :: repeat true (S c)) d)
    with (last (true :: repeat true (S c)) d).
  destruct c; [reflexivity|]. exact IH.
Qed.

Lemma unset_flag_means_no_callback f c :
  flags f = false :: repeat true c ->
  requestEnded (userData f) = false ->
  c = 0.
Proof.
  intros Hfl Hflag. destruct (flags_last f) as (l & Hl & _).
  rewrite Hflag, Hfl in Hl. destruct c as [|c]; [reflexivity|].
  apply (f_equal (fun x => last x false)) in Hl.
  rewrite last_after_false, last_last in Hl. discriminate.
Qed.

Lemma callbacks_until_none api i n m :
  n <= m -> callbacks_until api i m = [] -> callbacks_until api i n = [].
Proof.
  unfold callbacks_until. intros Hle H.
  apply app_eq_nil in H. destruct H as [-> H]. simpl.
  replace m with (n + (m - n)) in H by lia.
  rewrite seq_app, flat_map_app in H.
  apply app_eq_nil in H. tauto.
Qed.

Lemma request_returns_once_called_back b api fuel i o p n :
  (emscripten b = false -> n = 0) ->
  n <= fuel ->
  callbacks_until api i n <> [] ->
  exists a q, requestAdapterSync b api fuel i o p = (Returned a, q).
Proof.
  intros Hnat Hfuel Hcalled.
  destruct (body_spec b api fuel i o p)
    as (k & _ & Hk & _ & _ & Hfl & _ & Hfail & Hwait).
  unfold requestAdapterSync, bind.
  destruct (requestAdapterSync_body b api fuel i o p) as [[st f] q].
  cbn [fst snd] in *. destruct st.
  - eexists; eexists; reflexivity.
  - exfalso. destruct (Hfail eq_refl) as (Eb & _ & Hflag).
    apply Hcalled. rewrite (Hnat Eb). rewrite (Hk Eb) in Hfl.
    apply length_zero_iff_nil.
    exact (unset_flag_means_no_callback f _ Hfl Hflag).
  - exfalso. destruct (Hwait eq_refl) as (_ & -> & Hflag).
    apply Hcalled. apply (callbacks_until_none api i n fuel Hfuel).
    apply length_zero_iff_nil.
    exact (unset_flag_means_no_callback f _ Hfl Hflag).
Qed.

(** C8: within one activation of requestAdapterSync exactly one request
    is issued (followed only by sleeps), and the successive values of the
    completion flag are [false] at first and [true] after every run of the
    callback: the flag rises at most once, never falls, and is set by
    nothing but the callback (there are as many [true] values as callback
    runs). *)
Theorem completion_flag_set_once b api fuel i o p :
  exists n,
    let r := requestAdapterSync_body b api fuel i o p in
    let fl := flags (snd (fst r)) in
    calls (snd r) = (calls p ++ InstanceRequestAdapter i :: sleeps n)%list
    /\ List.length (filter is_request (InstanceRequestAdapter i :: sleeps n))
       = 1
    /\ fl = false :: repeat true (List.length (callbacks_until api i n))
    /\ hd true fl = false
    /\ changes false true fl <= 1
    /\ changes true false fl = 0.
Proof.
  destruct (body_spec b api fuel i o p)
    as (n & _ & _ & Hc & _ & Hfl & _).
  exists n. simpl in *. rewrite Hfl, no_request_in_sleeps.
  pose proof (changes_false_then_true
                (List.length (callbacks_until api i n))) as [? ?].
  repeat split; assumption.
Qed.

(** ** A request answered by one callback *)

Lemma wait_loop_done b api fuel k f p :
  requestEnded (userData f) = true ->
  wait_loop b api fuel k f p = (true, f, p).
Proof. intros H. destruct fuel; simpl; rewrite H; reflexivity. Qed.

Lemma logged_logged cs cs' p :
  logged cs' (logged cs p) = logged (cs ++ cs') p.
Proof. unfold logged; simpl. now rewrite app_assoc. Qed.

Lemma bind_run {A B} (m : M A) (k : A -> M B) p :
  bind m k p = k (fst (m p)) (snd (m p)).
Proof. unfold bind. destruct (m p); reflexivity. Qed.

Lemma request_call_run b api i o f p :
  wgpuInstanceRequestAdapter b api i o f p
  = run_callbacks b (api_request_adapter api i) f
      (logged [InstanceRequestAdapter i] p).
Proof. reflexivity. Qed.

Lemma sleep_run b api k f p :
  emscripten_sleep b api k 100 f p
  = run_callbacks b (api_sleep api k) f (logged (sleeps 1) p).
Proof. reflexivity. Qed.

Lemma run_callbacks_nil b f p : run_callbacks b [] f p = (f, p).
Proof. reflexivity. Qed.

Lemma run_callbacks_one b a f p :
  run_callbacks b [a] f p
  = (store (fst (deliver b a (userData f) p)) f,
     snd (deliver b a (userData f) p)).
Proof.
  simpl. rewrite bind_run. reflexivity.
Qed.

Lemma deliver_sets_flag b a u p :
  requestEnded (fst (deliver b a u p)) = true.
Proof. apply callback_sets_flag. Qed.

Lemma wait_loop_step b api fuel k f p :
  requestEnded (userData f) = false ->
  wait_loop b api (S fuel) k f p
  = wait_loop b api fuel (S k)
      (fst (emscripten_sleep b api k 100 f p))
      (snd (emscripten_sleep b api k 100 f p)).
Proof. intros H. simpl. rewrite H, bind_run. reflexivity. Qed.

Lemma wait_loop_single b api args : forall n fuel k f p,
  n <= fuel ->
  requestEnded (userData f) = false ->
  flat_map (api_sleep api) (seq k n) = [args] ->
  exists m, m <= n /\
    wait_loop b api fuel k f p
    = (true,
       store (fst (deliver b args (userData f) (logged (sleeps m) p))) f,
       snd (deliver b args (userData f) (logged (sleeps m) p))).
Proof.
  induction n as [|n IH]; intros fuel k f p Hfuel Hflag Hone;
    [discriminate|].
  destruct fuel as [|fuel]; [lia|].
  simpl in Hone. rewrite wait_loop_step, sleep_run by assumption.
  apply app_eq_unit in Hone. destruct Hone as [[Hk Hrest] | [Hk Hrest]].
  - rewrite Hk, run_callbacks_nil. simpl fst; simpl snd.
    destruct (IH fuel (S k) f (logged (sleeps 1) p)) as (m & Hm & Heq);
      [lia | assumption | assumption |].
    exists (S m). split; [lia|].
    rewrite Heq, logged_logged. reflexivity.
  - rewrite Hk, run_callbacks_one. simpl fst; simpl snd.
    exists 1. split; [lia|].
    apply wait_loop_done. apply deliver_sets_flag.
Qed.

(** With one callback delivered by the request call or one of the first
    [n] sleeps, the call returns what that callback left in [userData]. *)
Lemma requestAdapterSync_single b api fuel i o p n args :
  (emscripten b = false -> n = 0) ->
  n <= fuel ->
  callbacks_until api i n = [args] ->
  exists m, m <= n /\
    requestAdapterSync b api fuel i o p
    = (Returned
         (adapter (fst (deliver b args fresh_userData
                          (logged (InstanceRequestAdapter i :: sleeps m) p)))),
       snd (deliver b args fresh_userData
              (logged (InstanceRequestAdapter i :: sleeps m) p))).
Proof.
  intros Hnative Hfuel Hone. unfold callbacks_until in Hone.
  unfold requestAdapterSync, requestAdapterSync_body.
  fold fresh_userData.
  set (f0 := {| userData := fresh_userData; earlier := [] |}).
  apply app_eq_unit in Hone. destruct Hone as [[Hreq Hrest] | [Hreq Hrest]].
  - (* delivered while sleeping: only in the browser *)
    destruct (emscripten b) eqn:Eb;
      [|rewrite (Hnative eq_refl) in Hrest; discriminate].
    destruct (wait_loop_single b api args n fuel 0 f0
                (logged [InstanceRequestAdapter i] p) Hfuel eq_refl Hrest)
      as (m & Hm & Heq).
    exists m. split; [assumption|].
    rewrite !bind_run, request_call_run, Hreq, run_callbacks_nil.
    cbn [fst snd]. rewrite Heq, logged_logged. subst f0.
    cbn [fst snd app userData store].
    rewrite !deliver_sets_flag. destruct (ndebug b); reflexivity.
  - (* delivered inside the request call *)
    exists 0. split; [lia|].
    destruct (emscripten b);
      rewrite !bind_run, request_call_run, Hreq, run_callbacks_one;
      subst f0; cbn [fst snd app userData store].
    + rewrite wait_loop_done by apply deliver_sets_flag.
      cbn [fst snd app userData store].
      rewrite !deliver_sets_flag. destruct (ndebug b); reflexivity.
    + unfold ret. cbn [fst snd app userData store].
      rewrite !deliver_sets_flag. destruct (ndebug b); reflexivity.
Qed.

(** ** The report of inspectAdapter *)

(** *** Stepping through output statements *)

Lemma insert_eq o x :
  o << x = {| basefield := next_base (basefield o) x;
              text := text o ++ render (basefield o) x |}.
Proof.
  destruct o as [base t], x; unfold insert, put, setbase; simpl;
    rewrite ?append_nil_r; reflexivity.
Qed.

Lemma to_cout_run f p : to_cout f p = (tt, with_cout (f (cout p)) p).
Proof. reflexivity. Qed.

Lemma to_cout_then {B} f (k : unit -> M B) p :
  bind (to_cout f) k p = k tt (with_cout (f (cout p)) p).
Proof. reflexivity. Qed.

Lemma call_then {B} c (k : unit -> M B) p :
  bind (call c) k p = k tt (logged [c] p).
Proof. reflexivity. Qed.

Lemma with_cout_again o o' p : with_cout o' (with_cout o p) = with_cout o' p.
Proof. reflexivity. Qed.

Lemma cout_with_cout o p : cout (with_cout o p) = o.
Proof. reflexivity. Qed.

Lemma printed_printed b1 s1 b2 s2 p :
  printed b2 s2 (printed b1 s1 p) = printed b2 (s1 ++ s2) p.
Proof. unfold printed, with_cout; simpl. now rewrite append_assoc. Qed.

Lemma printed_nothing p : printed (basefield (cout p)) "" p = p.
Proof.
  destruct p as [[base t] e c]. unfold printed, with_cout; simpl.
  now rewrite append_nil_r.
Qed.

Lemma logged_printed cs base s p :
  logged cs (printed base s p) = printed base s (logged cs p).
Proof. reflexivity. Qed.

Lemma text_insert o x : text (o << x) = text o ++ render (basefield o) x.
Proof. now rewrite insert_eq. Qed.

Lemma base_insert o x : basefield (o << x) = next_base (basefield o) x.
Proof. now rewrite insert_eq. Qed.

Lemma with_cout_printed o p base s :
  basefield o = base ->
  text o = text (cout p) ++ s ->
  with_cout o p = printed base s p.
Proof. destruct o; simpl; intros -> ->; reflexivity. Qed.

(** One output statement appends to the text and may change the base. *)
Ltac output_step :=
  rewrite ?to_cout_then, ?to_cout_run; rewrite ?cout_with_cout, ?with_cout_again.

Ltac output_base :=
  rewrite ?base_insert; cbn [next_base basefield]; try reflexivity.

Ltac output_text :=
  repeat (progress (rewrite ?text_insert, ?base_insert;
                    cbn [next_base render unlines text basefield]));
  rewrite ?append_assoc, ?append_nil_r; try reflexivity.

Ltac output_eq :=
  f_equal; apply with_cout_printed; [output_base | output_text].

Lemma printed_with_cout base s o p :
  printed base s (with_cout o p)
  = with_cout {| basefield := base; text := text o ++ s |} p.
Proof. reflexivity. Qed.

Lemma print_limits_run l p :
  print_limits l p
  = (tt, printed (basefield (cout p))
           (unlines (limits_lines (basefield (cout p)) l)) p).
Proof.
  unfold print_limits. do 5 output_step.
  unfold limits_lines. output_eq.
Qed.

Lemma for_each_nth {A} (d : A) (body : A -> M unit) :
  forall l pre p,
    for_each (seq (List.length pre) (List.length l))
      (fun i => body (nth i (pre ++ l)%list d)) p
    = for_each l body p.
Proof.
  induction l as [|x l IH]; intros pre p; [reflexivity|].
  cbn [List.length seq for_each]. rewrite !bind_run, nth_middle.
  replace (S (List.length pre)) with (List.length (pre ++ [x])%list)
    by (rewrite length_app; simpl; lia).
  replace (pre ++ x :: l)%list with ((pre ++ [x]) ++ l)%list
    by (now rewrite <- app_assoc).
  apply IH.
Qed.

Lemma feature_loop_run : forall fs p,
  basefield (cout p) = Hex ->
  for_each fs (fun f =>
    to_cout (fun cout => cout << " - 0x" << Enum f << std_endl)) p
  = (tt, printed Hex (unlines (map feature_line fs)) p).
Proof.
  induction fs as [|f fs IH]; intros p Hhex.
  - simpl. rewrite <- Hhex, printed_nothing. reflexivity.
  - cbn [for_each map]. output_step. rewrite IH.
    + rewrite printed_with_cout. output_eq. unfold feature_line.
      rewrite Hhex. cbn [show_int32]. rewrite ?append_assoc. reflexivity.
    + rewrite cout_with_cout. output_base. assumption.
Qed.

Lemma print_features_run fs p :
  print_features (List.length fs) fs p
  = (tt, printed Dec (unlines (feature_lines fs)) p).
Proof.
  unfold print_features. do 2 output_step. rewrite bind_run.
  rewrite (for_each_nth 0%Z
             (fun f => to_cout (fun cout =>
                cout << " - 0x" << Enum f << std_endl)) fs []).
  rewrite feature_loop_run by (rewrite cout_with_cout; output_base).
  cbn [snd]. output_step. rewrite printed_with_cout, with_cout_again.
  unfold feature_lines. output_eq.
Qed.

Lemma with_cout_logged o cs p :
  with_cout o (logged cs p) = logged cs (with_cout o p).
Proof. reflexivity. Qed.

Lemma cout_logged cs p : cout (logged cs p) = cout p.
Proof. reflexivity. Qed.

Lemma written_buffer (fs : list WGPUFeatureName) :
  (fs ++ skipn (List.length fs) (repeat 0%Z (List.length fs)))%list = fs.
Proof.
  rewrite skipn_all2 by (rewrite repeat_length; lia). apply app_nil_r.
Qed.

Lemma bind_bind {A B C} (m : M A) (k : A -> M B) (k' : B -> M C) p :
  bind (bind m k) k' p = bind m (fun x => bind (k x) k') p.
Proof. unfold bind. destruct (m p) as [x p1]. reflexivity. Qed.

Lemma ret_then {A B} (x : A) (k : A -> M B) p : bind (ret x) k p = k x p.
Proof. reflexivity. Qed.

Lemma call_run c p : call c p = (tt, logged [c] p).
Proof. reflexivity. Qed.

Lemma print_limits_then {B} l (k : unit -> M B) p :
  bind (print_limits l) k p
  = k tt (printed (basefield (cout p))
            (unlines (limits_lines (basefield (cout p)) l)) p).
Proof. now rewrite bind_run, print_limits_run. Qed.

Lemma print_features_then {B} fs (k : unit -> M B) p :
  bind (print_features (List.length fs) fs) k p
  = k tt (printed Dec (unlines (feature_lines fs)) p).
Proof. now rewrite bind_run, print_features_run. Qed.

(** Stepping through a program: the head statement is run and the
    process state is kept as the logged calls around the stream. *)
Lemma printed_logged base s cs p :
  printed base s (logged cs p) = logged cs (printed base s p).
Proof. reflexivity. Qed.

Lemma with_cout_over_printed o base s p :
  with_cout o (printed base s p) = with_cout o p.
Proof. reflexivity. Qed.

Lemma cout_printed base s p :
  cout (printed base s p) = {| basefield := base; text := text (cout p) ++ s |}.
Proof. reflexivity. Qed.

Ltac proc_norm :=
  cbv beta; cbn [fst snd option_map featureCount features limits];
  rewrite ?printed_with_cout, ?printed_logged, ?printed_printed,
    ?with_cout_logged, ?with_cout_again, ?with_cout_over_printed,
    ?logged_logged, ?cout_logged, ?cout_with_cout, ?cout_printed.

Ltac proc_step :=
  first [ rewrite bind_bind | rewrite ret_then | rewrite call_then
        | rewrite to_cout_then | rewrite print_limits_then
        | rewrite print_features_then | rewrite call_run
        | rewrite to_cout_run ];
  proc_norm.

Lemma report_eq {A} (x : A) cs cs' o base s p :
  cs = cs' ->
  basefield o = base ->
  text o = text (cout p) ++ s ->
  (x, logged cs (with_cout o p)) = (x, logged cs' (printed base s p)).
Proof. intros -> Hb Ht. now rewrite (with_cout_printed o p base s). Qed.

(** The whole report: what inspectAdapter writes and which calls it
    makes, for every build and every stub. *)
Lemma inspectAdapter_run b api a p :
  inspectAdapter b api a p
  = (tt,
     logged (inspect_calls b api a)
       (printed Dec
          (unlines
             ((if limits_success b (fst (api_get_limits api a))
               then limits_lines (basefield (cout p))
                      (snd (api_get_limits api a))
               else [])
              ++ feature_lines (api_features api a)
              ++ info_lines (api_info api a)))
          p)).
Proof.
  unfold inspectAdapter, limits_success, inspect_calls, feature_calls,
    wgpuAdapterGetLimits, wgpuAdapterEnumerateFeatures,
    wgpuAdapterGetFeatures, wgpuSupportedFeaturesFreeMembers,
    wgpuAdapterGetInfo, wgpuAdapterInfoFreeMembers, when.
  rewrite !unlines_app.
  destruct (emscripten b).
  - do 5 proc_step.
    destruct (negb (fst (api_get_limits api a) =? 0)%Z);
      repeat proc_step; rewrite written_buffer; repeat proc_step;
      unfold info_lines;
      (apply report_eq; [reflexivity | output_base | output_text]).
  - do 5 proc_step.
    destruct (if backend_dawn b
              then (fst (api_get_limits api a) =? WGPUStatus_Success b)%Z
              else negb (fst (api_get_limits api a) =? 0)%Z);
      repeat proc_step;
      unfold info_lines;
      (apply report_eq; [reflexivity | output_base | output_text]).
Qed.

(** ** The entry point *)

Lemma main_run_null b api fuel p :
  api_create_instance api = NULL ->
  main b api fuel p
  = (Exited 1,
     {| cout := cout p;
        cerr := {| basefield := basefield (cerr p);
                   text := text (cerr p)
                           ++ unlines ["Could not initialize WebGPU!"] |};
        calls := (calls p ++ [CreateInstance])%list |}).
Proof.
  intros Hnull. unfold main, wgpuCreateInstance.
  do 3 proc_step. rewrite Hnull. cbn [N.eqb NULL].
  unfold bind, to_cerr, ret. cbn [cout cerr calls logged].
  do 2 f_equal. rewrite !insert_eq. cbn [basefield text next_base render unlines].
  now rewrite ?append_assoc, ?append_nil_r.
Qed.

Lemma main_run b api fuel p :
  api_create_instance api <> NULL ->
  main b api fuel p
  = let r := requestAdapterSync b api fuel (api_create_instance api)
               adapterOpts (before_request api p) in
    match fst r with
    | Returned h => (Exited 0, after_request b api h (snd r))
    | Aborted => (Abort, snd r)
    | Waiting => (Hang, snd r)
    end.
Proof.
  intros Hinst. unfold main, wgpuCreateInstance.
  do 3 proc_step.
  destruct (N.eqb_spec (api_create_instance api) NULL) as [|_];
    [contradiction|].
  do 2 proc_step. fold adapterOpts.
  assert (Hbefore :
    logged [CreateInstance]
      (with_cout (cout p << "WGPU instance: "
                         << Pointer (api_create_instance api) << std_endl
                         << "Requesting adapter..." << std_endl) p)
    = before_request api p).
  { unfold before_request. f_equal.
    apply with_cout_printed; [output_base | output_text]. }
  rewrite Hbefore, bind_run. cbv zeta.
  destruct (requestAdapterSync b api fuel (api_create_instance api)
              adapterOpts (before_request api p)) as [[h| |] q];
    cbn [fst snd]; try reflexivity.
  proc_step. rewrite bind_run, inspectAdapter_run.
  unfold wgpuInstanceRelease, wgpuAdapterRelease.
  repeat proc_step. unfold ret, after_request.
  apply report_eq; [now rewrite <- app_assoc | reflexivity |].
  cbn [text]. output_text.
Qed.

Lemma requestAdapterSync_calls b api fuel i o p :
  exists n, n <= fuel /\ (emscripten b = false -> n = 0) /\
    calls (snd (requestAdapterSync b api fuel i o p))
    = (calls p ++ InstanceRequestAdapter i :: sleeps n)%list.
Proof.
  destruct (body_spec b api fuel i o p) as (n & Hn & Hnat & Hc & _).
  exists n. repeat split; try assumption.
  unfold requestAdapterSync. rewrite bind_run.
  destruct (requestAdapterSync_body b api fuel i o p) as [[[| |] f] q];
    exact Hc.
Qed.

Lemma filter_sleeps f n :
  f (EmscriptenSleep 100) = false -> filter f (sleeps n) = [].
Proof. intros H. induction n; simpl; rewrite ?H; auto. Qed.

Lemma inspect_calls_are_inspection b api a :
  forallb is_inspection (inspect_calls b api a) = true.
Proof. unfold inspect_calls, feature_calls. destruct (emscripten b); reflexivity. Qed.

Lemma filter_none {A} (f g : A -> bool) l :
  (forall x, g x = true -> f x = false) ->
  forallb g l = true -> filter f l = [].
Proof.
  intros Hfg. induction l as [|x l IH]; simpl; [reflexivity|].
  intros H. apply andb_prop in H. destruct H as [Hx Hl].
  rewrite (Hfg x Hx). auto.
Qed.

Lemma no_release_in_inspection b api a :
  filter is_instance_release (inspect_calls b api a) = []
  /\ filter is_adapter_release (inspect_calls b api a) = [].
Proof.
  split; apply (filter_none _ is_inspection);
    try apply inspect_calls_are_inspection;
    intros [] H; try discriminate; reflexivity.
Qed.

Lemma run_calls_releases b api n h :
  filter is_instance_release (run_calls b api n h)
  = [InstanceRelease (api_create_instance api)]
  /\ filter is_adapter_release (run_calls b api n h) = [AdapterRelease h].
Proof.
  unfold run_calls. cbn [filter is_instance_release is_adapter_release].
  rewrite !filter_app, !filter_sleeps by reflexivity.
  destruct (no_release_in_inspection b api h) as [-> ->]. split; reflexivity.
Qed.

(** A run from the fresh process in which the request returns. *)
Lemma main_returned b api fuel h q :
  api_create_instance api <> NULL ->
  requestAdapterSync b api fuel (api_create_instance api) adapterOpts
    (before_request api start) = (Returned h, q) ->
  main b api fuel start = (Exited 0, after_request b api h q)
  /\ exists n, n <= fuel /\ (emscripten b = false -> n = 0) /\
       calls (after_request b api h q) = run_calls b api n h.
Proof.
  intros Hinst Hreq. split.
  - rewrite main_run by assumption. cbv zeta. rewrite Hreq. reflexivity.
  - destruct (requestAdapterSync_calls b api fuel (api_create_instance api)
                adapterOpts (before_request api start))
      as (n & Hn & Hnat & Hc).
    rewrite Hreq in Hc. cbn [snd] in Hc.
    exists n. repeat split; try assumption.
    unfold after_request, run_calls. cbn [calls logged printed with_cout].
    rewrite Hc. reflexivity.
Qed.

(** The outcome of a request answered by exactly one callback. *)
Lemma request_outcome b api fuel i o p n args :
  (emscripten b = false -> n = 0) ->
  n <= fuel ->
  callbacks_until api i n = [args] ->
  exists m, m <= n /\
    requestAdapterSync b api fuel i o p
    = if (cb_status args =? WGPURequestAdapterStatus_Success b)%Z
      then (Returned (cb_adapter args),
            logged (InstanceRequestAdapter i :: sleeps m) p)
      else (Returned NULL,
            logged (InstanceRequestAdapter i :: sleeps m)
              (printed (basefield (cout p))
                 (diagnostic (cb_message args)) p)).
Proof.
  intros Hnat Hfuel Hone.
  destruct (requestAdapterSync_single b api fuel i o p n args Hnat Hfuel Hone)
    as (m & Hm & Heq).
  exists m. split; [assumption|]. rewrite Heq. unfold deliver.
  rewrite callback_run.
  destruct (cb_status args =? WGPURequestAdapterStatus_Success b)%Z;
    cbn [fst snd adapter set_requestEnded set_adapter fresh_userData];
    [reflexivity|].
  f_equal. unfold diagnostic.
  change (logged (InstanceRequestAdapter i :: sleeps m) p)
    with (logged (InstanceRequestAdapter i :: sleeps m)
            (with_cout (cout p) p)) at 1.
  cbn [cout cerr calls logged with_cout].
  change (calls p ++ InstanceRequestAdapter i :: sleeps m)%list
    with (calls (logged (InstanceRequestAdapter i :: sleeps m) p)).
  unfold printed, with_cout, logged. cbn [cout cerr calls]. f_equal.
  rewrite !insert_eq. cbn [basefield text next_base render]. f_equal.
  now rewrite ?append_assoc.
Qed.

(** C2, as stated, fails: the diagnostic of a failed request carries the
    message only.  A native request failing with status 2 prints the same
    line as one failing with status 3, and the line does not mention the
    status. *)
Lemma diagnostic_omits_status :
  let failed status :=
    text (cout (snd (requestAdapterSync native
                       (stub 5 [found status 0 "no adapter"] (fun _ => []) 1)
                       0 5 adapterOpts start))) in
  failed 2%Z = "Could not get WebGPU adapter: no adapter" ++ nl
  /\ failed 3%Z = failed 2%Z
  /\ mentions (show_int32 Dec 2) (failed 2%Z) = false.
Proof. repeat split; reflexivity. Qed.

(** C2, amended: a request answered by one callback returns the handle
    the callback supplied when the status is success (so a non-null handle
    exactly when the request succeeded, the implementation supplying a
    non-null handle on success) and writes nothing; otherwise it returns
    the null handle, the stored handle being untouched, and writes the line
    "Could not get WebGPU adapter: " followed by the message supplied.
    The status itself is not written. *)
Theorem requestAdapterSync_result b api fuel i o p n args :
  (emscripten b = false -> n = 0) ->
  n <= fuel ->
  callbacks_until api i n = [args] ->
  exists h p',
    requestAdapterSync b api fuel i o p = (Returned h, p')
    /\ (cb_status args = WGPURequestAdapterStatus_Success b ->
        h = cb_adapter args /\ cout p' = cout p)
    /\ (cb_status args <> WGPURequestAdapterStatus_Success b ->
        h = NULL
        /\ text (cout p')
           = text (cout p) ++ "Could not get WebGPU adapter: "
               ++ cb_message args ++ nl)
    /\ ((cb_status args = WGPURequestAdapterStatus_Success b ->
         cb_adapter args <> NULL) ->
        (h <> NULL <-> cb_status args = WGPURequestAdapterStatus_Success b)).
Proof.
  intros Hnat Hfuel Hone.
  destruct (request_outcome b api fuel i o p n args Hnat Hfuel Hone)
    as (m & _ & Heq).
  destruct (Z.eqb_spec (cb_status args) (WGPURequestAdapterStatus_Success b))
    as [Hok | Hko]; eexists; eexists; (split; [exact Heq|]).
  - split; [intros _; split; reflexivity|].
    split; [intros H; contradiction|].
    intros Hc. split; [intros _; assumption | intros _; apply Hc; assumption].
  - split; [intros H; contradiction|].
    split; [intros _; split; reflexivity|].
    intros _. split; [intros H; exfalso; apply H; reflexivity
                     | intros H; contradiction].
Qed.

Lemma requestAdapterSync_result_witness :
  exists h p',
    requestAdapterSync browser
      (stub 5 [] (fun k => if Nat.eqb k 1 then [found 4 9 "none"] else []) 1)
      3 5 adapterOpts start = (Returned h, p')
    /\ (4%Z = 0%Z -> h = 9%N /\ cout p' = cout start)
    /\ (4%Z <> 0%Z ->
        h = NULL
        /\ text (cout p')
           = text (cout start) ++ "Could not get WebGPU adapter: "
               ++ "none" ++ nl)
    /\ ((4%Z = 0%Z -> 9%N <> NULL) -> (h <> NULL <-> 4%Z = 0%Z)).
Proof.
  apply (requestAdapterSync_result browser
           (stub 5 [] (fun k => if Nat.eqb k 1 then [found 4 9 "none"] else [])
              1)
           3 5 adapterOpts start 2 (found 4 9 "none")).
  - discriminate.
  - lia.
  - reflexivity.
Defined.

(** C3, as stated, fails on the order: in a successful native run the
    instance is released at position 7 of the calls, after the inspection
    calls, which start at position 2; so the release does not come before
    the inspection. *)
Lemma release_follows_inspection :
  let cs := calls (snd (main native (stub 5 [found 1 7 ""] (fun _ => []) 1)
                          0 start)) in
  position is_instance_release cs = Some 7
  /\ position is_inspection cs = Some 2
  /\ ~ (forall i j,
          position is_instance_release cs = Some i ->
          position is_inspection cs = Some j -> i < j).
Proof.
  cbv zeta. repeat split; try reflexivity.
  intros H. specialize (H 7 2 eq_refl eq_refl). lia.
Qed.

(** C3, amended: whenever the adapter request returns, with whatever
    handle (null after a failed request or not), [main] goes on to exit
    with status 0 and releases the instance exactly once; the release comes
    after every inspection call and immediately before the release of the
    adapter. *)
Theorem instance_released_after_report b api fuel h q :
  api_create_instance api <> NULL ->
  requestAdapterSync b api fuel (api_create_instance api) adapterOpts
    (before_request api start) = (Returned h, q) ->
  exists n p',
    main b api fuel start = (Exited 0, p')
    /\ calls p'
       = (CreateInstance :: InstanceRequestAdapter (api_create_instance api)
          :: sleeps n
          ++ inspect_calls b api h
          ++ [InstanceRelease (api_create_instance api); AdapterRelease h])%list
    /\ forallb is_inspection (inspect_calls b api h) = true
    /\ filter is_instance_release (calls p')
       = [InstanceRelease (api_create_instance api)].
Proof.
  intros Hinst Hreq.
  destruct (main_returned b api fuel h q Hinst Hreq)
    as (Hmain & n & _ & _ & Hcalls).
  exists n, (after_request b api h q).
  split; [assumption|]. split; [exact Hcalls|].
  split; [apply inspect_calls_are_inspection|].
  rewrite Hcalls. apply run_calls_releases.
Qed.

Lemma instance_released_after_report_witness :
  exists n p',
    main dawn (stub 5 [found 3 7 "no adapter"] (fun _ => []) 2) 0 start
    = (Exited 0, p')
    /\ calls p'
       = (CreateInstance :: InstanceRequestAdapter 5 :: sleeps n
          ++ inspect_calls dawn
               (stub 5 [found 3 7 "no adapter"] (fun _ => []) 2) NULL
          ++ [InstanceRelease 5; AdapterRelease NULL])%list
    /\ forallb is_inspection
         (inspect_calls dawn
            (stub 5 [found 3 7 "no adapter"] (fun _ => []) 2) NULL) = true
    /\ filter is_instance_release (calls p') = [InstanceRelease 5].
Proof.
  apply (instance_released_after_report dawn
           (stub 5 [found 3 7 "no adapter"] (fun _ => []) 2) 0 NULL
           (snd (requestAdapterSync dawn
                   (stub 5 [found 3 7 "no adapter"] (fun _ => []) 2) 0 5
                   adapterOpts
                   (before_request
                      (stub 5 [found 3 7 "no adapter"] (fun _ => []) 2)
                      start)))).
  - discriminate.
  - reflexivity.
Defined.

(** C4: when instance creation returns null, [main] writes the error
    line to the error stream and exits with status 1 having made no other
    call and written nothing to the output; when the instance is created
    and the request is answered by one callback reporting success (in the
    browser within the sleeps allowed), [main] exits with status 0, having
    released the instance exactly once and the adapter exactly once.  The
    limits query need not succeed for that. *)
Theorem main_exit_status b api fuel :
  (api_create_instance api = NULL ->
   main b api fuel start
   = (Exited 1,
      {| cout := Stream.init;
         cerr := {| basefield := Dec;
                    text := "Could not initialize WebGPU!" ++ nl |};
         calls := [CreateInstance] |}))
  /\
  (forall n args,
     api_create_instance api <> NULL ->
     (emscripten b = false -> n = 0) ->
     n <= fuel ->
     callbacks_until api (api_create_instance api) n = [args] ->
     cb_status args = WGPURequestAdapterStatus_Success b ->
     exists p',
       main b api fuel start = (Exited 0, p')
       /\ filter is_instance_release (calls p')
          = [InstanceRelease (api_create_instance api)]
       /\ filter is_adapter_release (calls p')
          = [AdapterRelease (cb_adapter args)]).
Proof.
  split.
  - intros Hnull. rewrite main_run_null by assumption. reflexivity.
  - intros n args Hinst Hnat Hfuel Hone Hok.
    destruct (request_outcome b api fuel (api_create_instance api)
                adapterOpts (before_request api start) n args
                Hnat Hfuel Hone) as (m & _ & Heq).
    rewrite Hok, Z.eqb_refl in Heq.
    destruct (main_returned b api fuel _ _ Hinst Heq)
      as (Hmain & k & _ & _ & Hcalls).
    eexists. split; [exact Hmain|].
    rewrite Hcalls. apply run_calls_releases.
Qed.

Lemma main_exit_status_witness :
  main native (stub NULL [] (fun _ => []) 1) 0 start
  = (Exited 1,
     {| cout := Stream.init;
        cerr := {| basefield := Dec;
                   text := "Could not initialize WebGPU!" ++ nl |};
        calls := [CreateInstance] |})
  /\
  exists p',
    main browser
      (stub 5 [] (fun k => if Nat.eqb k 2 then [found 0 7 ""] else []) 1)
      4 start = (Exited 0, p')
    /\ filter is_instance_release (calls p') = [InstanceRelease 5]
    /\ filter is_adapter_release (calls p') = [AdapterRelease 7].
Proof.
  split.
  - apply (proj1 (main_exit_status native (stub NULL [] (fun _ => []) 1) 0)).
    reflexivity.
  - apply (proj2 (main_exit_status browser
                    (stub 5 []
                       (fun k => if Nat.eqb k 2 then [found 0 7 ""] else [])
                       1) 4) 3 (found 0 7 "")).
    + discriminate.
    + discriminate.
    + lia.
    + reflexivity.
    + reflexivity.
Defined.

(** C9: [main] hands the handle it got from the request to
    inspectAdapter without testing it.  Whatever handle the request returns
    is the argument of every inspection call; and after a request answered
    by one callback reporting a failure that handle is null, so the null
    handle is inspected and then released, and [main] still exits with
    status 0. *)
Theorem main_inspects_unchecked b api fuel :
  api_create_instance api <> NULL ->
  (forall h q,
     requestAdapterSync b api fuel (api_create_instance api) adapterOpts
       (before_request api start) = (Returned h, q) ->
     main b api fuel start = (Exited 0, after_request b api h q)
     /\ In (AdapterGetLimits h) (calls (after_request b api h q))
     /\ In (AdapterGetInfo h) (calls (after_request b api h q)))
  /\
  (forall n args,
     (emscripten b = false -> n = 0) ->
     n <= fuel ->
     callbacks_until api (api_create_instance api) n = [args] ->
     cb_status args <> WGPURequestAdapterStatus_Success b ->
     exists m p',
       main b api fuel start = (Exited 0, p')
       /\ calls p'
          = (CreateInstance
             :: InstanceRequestAdapter (api_create_instance api)
             :: sleeps m
             ++ inspect_calls b api NULL
             ++ [InstanceRelease (api_create_instance api);
                 AdapterRelease NULL])%list
       /\ In (AdapterGetLimits NULL) (calls p')
       /\ In (AdapterGetInfo NULL) (calls p')).
Proof.
  intros Hinst.
  assert (Hin : forall n h,
            In (AdapterGetLimits h) (run_calls b api n h)
            /\ In (AdapterGetInfo h) (run_calls b api n h)).
  { intros n h. unfold run_calls, inspect_calls.
    split; right; right; apply in_or_app; right; [left; reflexivity|].
    right. apply in_or_app; left. apply in_or_app; right. left. reflexivity. }
  split.
  - intros h q Hreq.
    destruct (main_returned b api fuel h q Hinst Hreq)
      as (Hmain & n & _ & _ & Hcalls).
    split; [assumption|]. rewrite Hcalls. apply Hin.
  - intros n args Hnat Hfuel Hone Hko.
    destruct (request_outcome b api fuel (api_create_instance api)
                adapterOpts (before_request api start) n args
                Hnat Hfuel Hone) as (m & _ & Heq).
    apply Z.eqb_neq in Hko. rewrite Hko in Heq.
    destruct (main_returned b api fuel _ _ Hinst Heq)
      as (Hmain & k & _ & _ & Hcalls).
    exists k. eexists. split; [exact Hmain|].
    split; [exact Hcalls|]. rewrite Hcalls. apply Hin.
Qed.

Lemma main_inspects_unchecked_witness :
  exists m p',
    main native (stub 5 [found 2 0 "no adapter"] (fun _ => []) 1) 0 start
    = (Exited 0, p')
    /\ calls p'
       = (CreateInstance :: InstanceRequestAdapter 5 :: sleeps m
          ++ inspect_calls native
               (stub 5 [found 2 0 "no adapter"] (fun _ => []) 1) NULL
          ++ [InstanceRelease 5; AdapterRelease NULL])%list
    /\ In (AdapterGetLimits NULL) (calls p')
    /\ In (AdapterGetInfo NULL) (calls p').
Proof.
  apply (proj2 (main_inspects_unchecked native
                  (stub 5 [found 2 0 "no adapter"] (fun _ => []) 1) 0
                  ltac:(discriminate))
           0 (found 2 0 "no adapter")).
  - reflexivity.
  - lia.
  - reflexivity.
  - discriminate.
Defined.

(** ** The report, section by section *)

Lemma of_pos_lower : forall (p : positive) (rest : string),
  all_chars is_lower_hex_digit rest = true ->
  all_chars is_lower_hex_digit (HexString.Raw.of_pos p rest) = true.
Proof.
  fix IH 1. intros p rest H.
  do 4 (try destruct p as [p|p|]); cbn [HexString.Raw.of_pos];
    try (apply IH); cbn [all_chars]; rewrite ?H; reflexivity.
Qed.

Lemma hex_digits_lower n : all_chars is_lower_hex_digit (hex_digits n) = true.
Proof. destruct n; [reflexivity | now apply of_pos_lower]. Qed.

Lemma hex_digits_value n : HexString.Raw.to_N (hex_digits n) 0 = n.
Proof. destruct n; [reflexivity | apply HexString.Raw.to_N_of_pos]. Qed.

Lemma dec_digits_value n : dec_value (dec_digits n) = Some n.
Proof.
  unfold dec_value, dec_digits. rewrite NilZero.usu.
  - cbn [option_map]. now rewrite DecimalN.Unsigned.of_to.
  - destruct n as [|q]; [discriminate|].
    apply DecimalPos.Unsigned.to_uint_nonnil.
Qed.

(** What failure of the limits query means in each build. *)
Lemma limits_failure_by_build b code :
  limits_success b code = false <->
  (if negb (emscripten b) && backend_dawn b
   then code <> WGPUStatus_Success b
   else code = 0%Z).
Proof.
  unfold limits_success.
  destruct (emscripten b), (backend_dawn b); cbn [negb andb];
    rewrite ?negb_false_iff; try apply Z.eqb_eq; apply Z.eqb_neq.
Qed.

(** C5: when the limits query reports failure (a status other than
    [WGPUStatus_Success] with Dawn, a zero result otherwise) the report
    consists of the features section followed by the identification
    section, with no limits line; the calls made are the same as
    otherwise. *)
Theorem failed_limits_are_skipped b api a p :
  limits_success b (fst (api_get_limits api a)) = false ->
  report_text b api a p
  = text (cout p)
    ++ unlines ("Adapter features:" :: map feature_line (api_features api a))
    ++ unlines (info_lines (api_info api a))
  /\ calls (snd (inspectAdapter b api a p))
     = (calls p ++ inspect_calls b api a)%list.
Proof.
  intros Hfail. unfold report_text. rewrite inspectAdapter_run, Hfail.
  cbn [snd cout calls logged printed with_cout text app].
  rewrite unlines_app. split; reflexivity.
Qed.

Lemma failed_limits_are_skipped_witness :
  report_text dawn (stub 5 [] (fun _ => []) 2) 7 start
  = text (cout start)
    ++ unlines ("Adapter features:"
                :: map feature_line
                     (api_features (stub 5 [] (fun _ => []) 2) 7))
    ++ unlines (info_lines (api_info (stub 5 [] (fun _ => []) 2) 7))
  /\ calls (snd (inspectAdapter dawn (stub 5 [] (fun _ => []) 2) 7 start))
     = (calls start ++ inspect_calls dawn (stub 5 [] (fun _ => []) 2) 7)%list.
Proof.
  apply (failed_limits_are_skipped dawn (stub 5 [] (fun _ => []) 2) 7 start).
  reflexivity.
Defined.

(** C6: when the limits query succeeds, and the stream is in decimal
    mode as [main] leaves it, the report starts with the limits section:
    its heading and exactly four lines giving maxTextureDimension1D,
    maxTextureDimension2D, maxTextureDimension3D and maxTextureArrayLayers
    in this order, each with the value the query reported, in decimal. *)
Theorem limits_are_printed_in_order b api a p :
  limits_success b (fst (api_get_limits api a)) = true ->
  basefield (cout p) = Dec ->
  let l := snd (api_get_limits api a) in
  report_text b api a p
  = text (cout p)
    ++ unlines
         [ "Adapter limits:";
           " - maxTextureDimension1D: " ++ dec_digits (maxTextureDimension1D l);
           " - maxTextureDimension2D: " ++ dec_digits (maxTextureDimension2D l);
           " - maxTextureDimension3D: " ++ dec_digits (maxTextureDimension3D l);
           " - maxTextureArrayLayers: " ++ dec_digits (maxTextureArrayLayers l) ]
    ++ unlines (feature_lines (api_features api a))
    ++ unlines (info_lines (api_info api a)).
Proof.
  intros Hok Hdec. unfold report_text. rewrite inspectAdapter_run, Hok, Hdec.
  cbn [snd cout calls logged printed with_cout text].
  rewrite !unlines_app. reflexivity.
Qed.

Lemma limits_are_printed_in_order_witness :
  report_text native (stub 5 [] (fun _ => []) 1) 7 start
  = text (cout start)
    ++ unlines
         [ "Adapter limits:";
           " - maxTextureDimension1D: " ++ "8192";
           " - maxTextureDimension2D: " ++ "8192";
           " - maxTextureDimension3D: " ++ "2048";
           " - maxTextureArrayLayers: " ++ "256" ]
    ++ unlines (feature_lines (api_features (stub 5 [] (fun _ => []) 1) 7))
    ++ unlines (info_lines (api_info (stub 5 [] (fun _ => []) 1) 7)).
Proof.
  apply (limits_are_printed_in_order native (stub 5 [] (fun _ => []) 1) 7
           start); reflexivity.
Defined.

(** C7: the features section of the report has, under its heading, one
    line per feature code of the list the implementation returned, in the
    order of the list; a line is " - 0x" followed by the code in lowercase
    hexadecimal digits (for codes in the range of the enumeration, the
    digits denote the code itself).  On the builds where the list
    belongs to the implementation (all but the browser-hosted one, which
    fills a vector of its own), the list is handed back exactly once,
    after it was obtained. *)
Theorem features_are_printed_in_hex b api a p :
  report_text b api a p
  = text (cout p)
    ++ unlines (if limits_success b (fst (api_get_limits api a))
                then limits_lines (basefield (cout p))
                       (snd (api_get_limits api a))
                else [])
    ++ unlines ("Adapter features:"
                :: map (fun f => " - 0x" ++ hex_digits (Z.to_N (f mod 2 ^ 32)))
                     (api_features api a))
    ++ unlines (info_lines (api_info api a))
  /\ (forall f,
        all_chars is_lower_hex_digit (hex_digits (Z.to_N (f mod 2 ^ 32))) = true
        /\ ((0 <= f < 2 ^ 31)%Z ->
            Z.of_N (HexString.Raw.to_N (hex_digits (Z.to_N (f mod 2 ^ 32))) 0)
            = f))
  /\ calls (snd (inspectAdapter b api a p))
     = (calls p ++ inspect_calls b api a)%list
  /\ (emscripten b = false ->
      filter is_features_free (inspect_calls b api a)
      = [SupportedFeaturesFreeMembers (api_features api a)]
      /\ position is_features_free (inspect_calls b api a) = Some 2
      /\ nth_error (inspect_calls b api a) 1 = Some (AdapterGetFeatures a)).
Proof.
  unfold report_text. rewrite inspectAdapter_run.
  cbn [snd cout calls logged printed with_cout text].
  split; [|split; [|split]].
  - rewrite !unlines_app. reflexivity.
  - intros f. split; [apply hex_digits_lower|].
    intros Hf. rewrite hex_digits_value, Z.mod_small by lia.
    apply Z2N.id. lia.
  - reflexivity.
  - intros Hnative. unfold inspect_calls, feature_calls. rewrite Hnative.
    repeat split; reflexivity.
Qed.

Lemma features_are_printed_in_hex_witness :
  report_text native (stub 5 [] (fun _ => []) 1) 7 start
  = unlines (limits_lines Dec stub_limits)
    ++ unlines [ "Adapter features:"; " - 0x1"; " - 0x2a" ]
    ++ unlines (info_lines stub_info)
  /\ Z.of_N (HexString.Raw.to_N (hex_digits (Z.to_N (42 mod 2 ^ 32))) 0)
     = 42%Z
  /\ calls (snd (inspectAdapter native (stub 5 [] (fun _ => []) 1) 7 start))
     = [ AdapterGetLimits 7; AdapterGetFeatures 7;
         SupportedFeaturesFreeMembers [1; 42]%Z;
         AdapterGetInfo 7; AdapterInfoFreeMembers stub_info ]
  /\ filter is_features_free
       (inspect_calls native (stub 5 [] (fun _ => []) 1) 7)
     = [SupportedFeaturesFreeMembers [1; 42]%Z].
Proof.
  destruct (features_are_printed_in_hex native (stub 5 [] (fun _ => []) 1) 7
              start) as (Htext & Hdigits & Hcalls & Hfree).
  split; [exact Htext|].
  split; [apply (proj2 (Hdigits 42%Z)); lia|].
  split; [exact Hcalls|].
  exact (proj1 (Hfree eq_refl)).
Defined.

(** C10: the identification section closes the report: vendorID and
    deviceID are written in decimal, whatever base the stream was in
    before, adapterType and backendType in hexadecimal after "0x"; the
    stream is back in decimal mode when inspectAdapter returns, so that a
    number written next comes out in decimal.  The decimal digits written
    denote the number; the hexadecimal digits are lowercase and, for a code
    in the range of the enumeration, denote the code. *)
Theorem properties_section_restores_decimal b api a p :
  let i := api_info api a in
  let p' := snd (inspectAdapter b api a p) in
  text (cout p')
  = text (cout p)
    ++ unlines (if limits_success b (fst (api_get_limits api a))
                then limits_lines (basefield (cout p))
                       (snd (api_get_limits api a))
                else [])
    ++ unlines (feature_lines (api_features api a))
    ++ unlines
         [ "Adapter properties:";
           " - vendorID: " ++ dec_digits (vendorID i);
           " - vendorName: " ++ vendor i;
           " - architecture: " ++ architecture i;
           " - deviceID: " ++ dec_digits (deviceID i);
           " - name: " ++ device i;
           " - driverDescription: " ++ description i;
           " - adapterType: 0x"
             ++ hex_digits (Z.to_N (adapterType i mod 2 ^ 32));
           " - backendType: 0x"
             ++ hex_digits (Z.to_N (backendType i mod 2 ^ 32)) ]
  /\ basefield (cout p') = Dec
  /\ (forall n, text (cout p' << UInt32 n) = text (cout p') ++ dec_digits n)
  /\ (forall n, dec_value (dec_digits n) = Some n)
  /\ (forall v,
        all_chars is_lower_hex_digit (hex_digits (Z.to_N (v mod 2 ^ 32))) = true
        /\ ((0 <= v < 2 ^ 31)%Z ->
            Z.of_N (HexString.Raw.to_N (hex_digits (Z.to_N (v mod 2 ^ 32))) 0)
            = v)).
Proof.
  cbv zeta. rewrite inspectAdapter_run.
  cbn [snd cout calls logged printed with_cout text basefield].
  split; [|split; [|split; [|split]]].
  - rewrite !unlines_app. reflexivity.
  - reflexivity.
  - intros n. rewrite text_insert. reflexivity.
  - apply dec_digits_value.
  - intros v. split; [apply hex_digits_lower|].
    intros Hv. rewrite hex_digits_value, Z.mod_small by lia.
    apply Z2N.id. lia.
Qed.

(** The report of the stub entered in hexadecimal mode: the identification
    numbers are in decimal all the same, and so is a number written after
    the report. *)
Lemma properties_section_restores_decimal_witness :
  let p' := snd (inspectAdapter native (stub 5 [] (fun _ => []) 1) 7
                   (with_cout (cout start << std_hex) start)) in
  text (cout p')
  = ""
    ++ unlines (limits_lines Hex stub_limits)
    ++ unlines [ "Adapter features:"; " - 0x1"; " - 0x2a" ]
    ++ unlines
         [ "Adapter properties:";
           " - vendorID: " ++ "4318";
           " - vendorName: " ++ "acme";
           " - architecture: " ++ "arch";
           " - deviceID: " ++ "7171";
           " - name: " ++ "gpu0";
           " - driverDescription: " ++ "driver 1.0";
           " - adapterType: 0x" ++ "1";
           " - backendType: 0x" ++ "6" ]
  /\ basefield (cout p') = Dec
  /\ text (cout p' << UInt32 255) = text (cout p') ++ "255"
  /\ dec_value "4318" = Some 4318%N
  /\ Z.of_N (HexString.Raw.to_N "6" 0) = 6%Z.
Proof.
  destruct (properties_section_restores_decimal native
              (stub 5 [] (fun _ => []) 1) 7
              (with_cout (cout start << std_hex) start))
    as (Htext & Hbase & Hnext & Hdec & Hhex).
  split; [exact Htext|]. split; [exact Hbase|].
  split; [exact (Hnext 255%N)|]. split; [exact (Hdec 4318%N)|].
  apply (proj2 (Hhex 6%Z)). lia.
Defined.

(** The report entered in hexadecimal mode: the limits follow the mode,
    the identification numbers do not. *)
Example report_from_hex_mode :
  report_text native (stub 5 [] (fun _ => []) 1) 7
    (with_cout (cout start << std_hex) start)
  = unlines
      [ "Adapter limits:";
        " - maxTextureDimension1D: 2000";
        " - maxTextureDimension2D: 2000";
        " - maxTextureDimension3D: 800";
        " - maxTextureArrayLayers: 100";
        "Adapter features:"; " - 0x1"; " - 0x2a";
        "Adapter properties:";
        " - vendorID: 4318"; " - vendorName: acme"; " - architecture: arch";
        " - deviceID: 7171"; " - name: gpu0";
        " - driverDescription: driver 1.0";
        " - adapterType: 0x1"; " - backendType: 0x6" ].
Proof. reflexivity. Qed.

(** ** The stream mode across the program

    Nothing the request writes changes the base of the stream, so [main]
    enters inspectAdapter in decimal mode. *)

Lemma callback_keeps_base b s a m u p :
  basefield (cout (snd (callback b s a m u p))) = basefield (cout p).
Proof.
  rewrite callback_run. destruct (_ =? _)%Z; cbn [snd cout]; [reflexivity|].
  now rewrite !base_insert.
Qed.

Lemma run_callbacks_keeps_base b l : forall f p,
  basefield (cout (snd (run_callbacks b l f p))) = basefield (cout p).
Proof.
  induction l as [|a l IH]; intros f p; [reflexivity|].
  cbn [run_callbacks]. rewrite bind_run, IH. apply callback_keeps_base.
Qed.

Lemma wait_loop_keeps_base b api : forall fuel k f p,
  basefield (cout (snd (wait_loop b api fuel k f p))) = basefield (cout p).
Proof.
  induction fuel as [|fuel IH]; intros k f p;
    destruct (requestEnded (userData f)) eqn:E.
  1-3: simpl; rewrite E; reflexivity.
  rewrite wait_loop_step by assumption.
  rewrite IH, sleep_run, run_callbacks_keeps_base. reflexivity.
Qed.

Lemma requestAdapterSync_keeps_base b api fuel i o p :
  basefield (cout (snd (requestAdapterSync b api fuel i o p)))
  = basefield (cout p).
Proof.
  unfold requestAdapterSync, requestAdapterSync_body.
  set (f0 := {| userData := {| adapter := NULL; requestEnded := false |};
                earlier := [] |}).
  assert (H1 : basefield
                 (cout (snd (wgpuInstanceRequestAdapter b api i o f0 p)))
               = basefield (cout p)).
  { rewrite request_call_run, run_callbacks_keeps_base. reflexivity. }
  unfold bind.
  destruct (emscripten b);
    destruct (wgpuInstanceRequestAdapter b api i o f0 p) as [f1 p1];
    cbn [snd] in H1.
  - pose proof (wait_loop_keeps_base b api fuel 0 f1 p1) as H2.
    destruct (wait_loop b api fuel 0 f1 p1) as [[left f2] p2].
    cbn [snd] in H2.
    destruct left;
      [destruct (ndebug b); [|destruct (requestEnded (userData f2))]|];
      cbn [snd ret]; congruence.
  - cbn [ret].
    destruct (ndebug b); [|destruct (requestEnded (userData f1))];
      cbn [snd ret]; congruence.
Qed.

Lemma main_inspects_in_decimal b api fuel h q :
  requestAdapterSync b api fuel (api_create_instance api) adapterOpts
    (before_request api start) = (Returned h, q) ->
  basefield (cout q) = Dec.
Proof.
  intros Hreq.
  pose proof (requestAdapterSync_keeps_base b api fuel
                (api_create_instance api) adapterOpts
                (before_request api start)) as H.
  rewrite Hreq in H. exact H.
Qed.

(** * Further properties *)

(** ** Several runs of the callback *)

Lemma failed_callback_prints (m : string) p :
  {| cout := cout p << "Could not get WebGPU adapter: " << m << std_endl;
     cerr := cerr p; calls := calls p |}
  = printed (basefield (cout p)) (diagnostic m) p.
Proof.
  unfold printed, with_cout, diagnostic. f_equal.
  rewrite !insert_eq. cbn [basefield text next_base render]. f_equal.
  now rewrite ?append_assoc.
Qed.

Lemma run_callbacks_result b l : forall f p,
  adapter (userData (fst (run_callbacks b l f p)))
  = last_success b l (adapter (userData f))
  /\ requestEnded (userData (fst (run_callbacks b l f p)))
     = requestEnded (userData f) || match l with [] => false | _ => true end
  /\ snd (run_callbacks b l f p)
     = printed (basefield (cout p)) (diagnostics b l) p.
Proof.
  induction l as [|c l IH]; intros f p.
  - cbn [run_callbacks last_success diagnostics ret fst snd].
    now rewrite orb_false_r, printed_nothing.
  - cbn [run_callbacks last_success diagnostics]. rewrite bind_run.
    rewrite callback_run.
    destruct (cb_status c =? WGPURequestAdapterStatus_Success b)%Z;
      cbn [fst snd].
    + destruct (IH (store (set_requestEnded true
                             (set_adapter (cb_adapter c) (userData f))) f) p)
        as (Ha & Hf & Hp).
      rewrite Ha, Hf, Hp, orb_true_r.
      cbn [store userData adapter requestEnded set_adapter set_requestEnded].
      repeat split; try (destruct l; reflexivity).
    + rewrite failed_callback_prints.
      destruct (IH (store (set_requestEnded true (userData f)) f)
                  (printed (basefield (cout p))
                     (diagnostic (cb_message c)) p))
        as (Ha & Hf & Hp).
      rewrite Ha, Hf, Hp, orb_true_r, printed_printed.
      cbn [store userData adapter requestEnded set_adapter set_requestEnded].
      repeat split; try (destruct l; reflexivity).
Qed.

Lemma logged_nil p : logged [] p = p.
Proof. destruct p. unfold logged; simpl. now rewrite app_nil_r. Qed.

(** The two builds of requestAdapterSync, in terms of the runs of the
    callback. *)
Lemma requestAdapterSync_native b api fuel i o p :
  emscripten b = false ->
  requestAdapterSync b api fuel i o p
  = let r := run_callbacks b (api_request_adapter api i) fresh_frame
               (logged [InstanceRequestAdapter i] p) in
    (if ndebug b || requestEnded (userData (fst r))
     then Returned (adapter (userData (fst r))) else Aborted,
     snd r).
Proof.
  intros Eb. unfold requestAdapterSync, requestAdapterSync_body.
  rewrite Eb. fold fresh_userData. fold fresh_frame.
  rewrite !bind_run, request_call_run. cbv zeta. unfold ret. cbn [fst snd].
  destruct (ndebug b); [reflexivity|].
  destruct (requestEnded
              (userData
                 (fst (run_callbacks b (api_request_adapter api i) fresh_frame
                         (logged [InstanceRequestAdapter i] p)))));
    reflexivity.
Qed.

Lemma requestAdapterSync_browser b api fuel i o p :
  emscripten b = true ->
  requestAdapterSync b api fuel i o p
  = let r1 := run_callbacks b (api_request_adapter api i) fresh_frame
                (logged [InstanceRequestAdapter i] p) in
    let r2 := wait_loop b api fuel 0 (fst r1) (snd r1) in
    (if fst (fst r2)
     then if ndebug b || requestEnded (userData (snd (fst r2)))
          then Returned (adapter (userData (snd (fst r2)))) else Aborted
     else Waiting,
     snd r2).
Proof.
  intros Eb. unfold requestAdapterSync, requestAdapterSync_body.
  rewrite Eb. fold fresh_userData. fold fresh_frame.
  rewrite !bind_run, request_call_run. cbv zeta.
  destruct (wait_loop b api fuel 0
              (fst (run_callbacks b (api_request_adapter api i) fresh_frame
                      (logged [InstanceRequestAdapter i] p)))
              (snd (run_callbacks b (api_request_adapter api i) fresh_frame
                      (logged [InstanceRequestAdapter i] p))))
    as [[left f] q].
  cbn [fst snd].
  destruct left; [destruct (ndebug b); [|destruct (requestEnded (userData f))]|];
    reflexivity.
Qed.

(** The loop with nothing delivered: it sleeps as long as it is allowed. *)
Lemma wait_loop_idle b api : forall fuel k f p,
  requestEnded (userData f) = false ->
  (forall j, api_sleep api j = []) ->
  wait_loop b api fuel k f p = (false, f, logged (sleeps fuel) p).
Proof.
  induction fuel as [|fuel IH]; intros k f p Hflag Hnone.
  - simpl. rewrite Hflag. unfold ret. now rewrite logged_nil.
  - rewrite wait_loop_step, sleep_run, Hnone, run_callbacks_nil by assumption.
    cbn [fst snd]. rewrite IH, logged_logged by assumption. reflexivity.
Qed.

(** The loop up to the first sleep that delivers something. *)
Lemma wait_loop_first b api : forall n fuel k f p,
  requestEnded (userData f) = false ->
  (forall j, j < n -> api_sleep api (k + j) = []) ->
  api_sleep api (k + n) <> [] ->
  n < fuel ->
  wait_loop b api fuel k f p
  = (true,
     fst (run_callbacks b (api_sleep api (k + n)) f
            (logged (sleeps (S n)) p)),
     snd (run_callbacks b (api_sleep api (k + n)) f
            (logged (sleeps (S n)) p))).
Proof.
  induction n as [|n IH]; intros fuel k f p Hflag Hnone Hsome Hfuel;
    (destruct fuel as [|fuel]; [lia|]);
    rewrite wait_loop_step, sleep_run by assumption.
  - rewrite Nat.add_0_r in *. apply wait_loop_done.
    destruct (run_callbacks_result b (api_sleep api k) f
                (logged (sleeps 1) p)) as (_ & -> & _).
    destruct (api_sleep api k); [contradiction|]. apply orb_true_r.
  - assert (Hk : api_sleep api k = [])
      by (rewrite <- (Nat.add_0_r k); apply Hnone; lia).
    rewrite Hk, run_callbacks_nil. cbn [fst snd].
    rewrite (IH fuel (S k) f (logged (sleeps 1) p)); try assumption; try lia.
    + rewrite logged_logged. replace (S k + n) with (k + S n) by lia.
      reflexivity.
    + intros j Hj. replace (S k + j) with (k + S j) by lia.
      apply Hnone. lia.
    + replace (S k + n) with (k + S n) by lia. assumption.
Qed.

(** ** The request, case by case *)

Lemma requestAdapterSync_body_native b api fuel i o p :
  emscripten b = false ->
  requestAdapterSync_body b api fuel i o p
  = let r := run_callbacks b (api_request_adapter api i) fresh_frame
               (logged [InstanceRequestAdapter i] p) in
    (if ndebug b then Completed
     else if requestEnded (userData (fst r)) then Completed
          else AssertionFailed,
     fst r, snd r).
Proof.
  intros Eb. unfold requestAdapterSync_body.
  rewrite Eb. fold fresh_userData. fold fresh_frame.
  rewrite !bind_run, request_call_run. cbv zeta. unfold ret. cbn [fst snd].
  destruct (ndebug b); [reflexivity|].
  destruct (requestEnded
              (userData
                 (fst (run_callbacks b (api_request_adapter api i) fresh_frame
                         (logged [InstanceRequestAdapter i] p)))));
    reflexivity.
Qed.

(** C1: the native path does not keep what its assertion says.  It has no
    wait: when the implementation leaves [wgpuInstanceRequestAdapter]
    without having run the callback, [assert(userData.requestEnded)] is
    reached with the flag still false and no store made into [userData].
    A build that compiles the assertion aborts there; a build with
    [NDEBUG] returns, before the callback has fired, the null handle the
    record was initialised with. *)
Theorem native_return_precedes_callback b api fuel i o p :
  emscripten b = false ->
  api_request_adapter api i = [] ->
  requestAdapterSync_body b api fuel i o p
  = (if ndebug b then Completed else AssertionFailed,
     fresh_frame, logged [InstanceRequestAdapter i] p)
  /\ requestEnded (userData fresh_frame) = false
  /\ earlier fresh_frame = []
  /\ requestAdapterSync b api fuel i o p
     = (if ndebug b then Returned NULL else Aborted,
        logged [InstanceRequestAdapter i] p).
Proof.
  intros Eb Hnone.
  rewrite requestAdapterSync_native, requestAdapterSync_body_native
    by assumption.
  cbv zeta. rewrite Hnone, run_callbacks_nil. cbn [fst snd].
  repeat split; destruct (ndebug b); reflexivity.
Qed.

Lemma native_return_precedes_callback_witness :
  requestAdapterSync_body native_ndebug (stub 5 [] (fun _ => []) 1) 0 5
    adapterOpts start
  = (Completed, fresh_frame, logged [InstanceRequestAdapter 5] start)
  /\ requestEnded (userData fresh_frame) = false
  /\ earlier fresh_frame = []
  /\ requestAdapterSync native_ndebug (stub 5 [] (fun _ => []) 1) 0 5
       adapterOpts start
     = (Returned NULL, logged [InstanceRequestAdapter 5] start).
Proof.
  apply (native_return_precedes_callback native_ndebug
           (stub 5 [] (fun _ => []) 1) 0 5 adapterOpts start);
    reflexivity.
Defined.

(** X1: on a native build the call makes the request and never sleeps.
    It ends in the failed assertion exactly when the assertion is compiled
    in and the implementation did not run the callback inside
    [wgpuInstanceRequestAdapter]; when the callback was not run nothing is
    written, and a build with [NDEBUG] returns the null handle. *)
Theorem native_request_outcomes b api fuel i o p :
  emscripten b = false ->
  let r := requestAdapterSync b api fuel i o p in
  (fst r = Aborted <-> ndebug b = false /\ api_request_adapter api i = [])
  /\ fst r <> Waiting
  /\ calls (snd r) = (calls p ++ [InstanceRequestAdapter i])%list
  /\ (api_request_adapter api i = [] ->
      cout (snd r) = cout p
      /\ (ndebug b = true -> fst r = Returned NULL)).
Proof.
  intros Eb. cbv zeta. rewrite requestAdapterSync_native by assumption.
  cbv zeta.
  destruct (run_callbacks_result b (api_request_adapter api i) fresh_frame
              (logged [InstanceRequestAdapter i] p)) as (Ha & Hflag & Hout).
  rewrite Hflag, Hout, Ha.
  cbn [fst snd fresh_frame userData fresh_userData requestEnded adapter orb
       calls cout printed with_cout logged].
  destruct (api_request_adapter api i) as [|c l] eqn:El;
    destruct (ndebug b); cbn [orb fst last_success diagnostics];
    rewrite ?append_nil_r;
    repeat split; try discriminate; try tauto;
    try (destruct (cout p); reflexivity);
    try (intros [H1 H2]; discriminate).
Qed.

Lemma native_request_outcomes_witness :
  let r := requestAdapterSync native_ndebug
             (stub 5 [] (fun _ => [found 1 7 ""]) 1) 9 5 adapterOpts start in
  (fst r = Aborted <-> true = false /\ @nil CallbackArgs = [])
  /\ fst r <> Waiting
  /\ calls (snd r) = (calls start ++ [InstanceRequestAdapter 5])%list
  /\ (@nil CallbackArgs = [] ->
      cout (snd r) = cout start /\ (true = true -> fst r = Returned NULL)).
Proof.
  apply (native_request_outcomes native_ndebug
           (stub 5 [] (fun _ => [found 1 7 ""]) 1) 9 5 adapterOpts start).
  reflexivity.
Defined.

(** X2: in the browser-hosted build, when the request call delivers
    nothing and the sleep number [n] is the first during which the callback
    runs, the call returns after exactly [n + 1] sleeps of 100 ms each,
    provided that many are allowed. *)
Theorem browser_request_sleeps_until_called_back b api fuel i o p n :
  emscripten b = true ->
  api_request_adapter api i = [] ->
  (forall j, j < n -> api_sleep api j = []) ->
  api_sleep api n <> [] ->
  n < fuel ->
  requestAdapterSync b api fuel i o p
  = (Returned (last_success b (api_sleep api n) NULL),
     printed (basefield (cout p)) (diagnostics b (api_sleep api n))
       (logged (InstanceRequestAdapter i :: sleeps (S n)) p)).
Proof.
  intros Eb Hreq Hnone Hsome Hfuel.
  rewrite requestAdapterSync_browser by assumption. cbv zeta.
  rewrite Hreq, run_callbacks_nil. cbn [fst snd].
  rewrite (wait_loop_first b api n fuel 0 fresh_frame); try assumption;
    try reflexivity.
  cbn [fst snd Nat.add]. rewrite logged_logged.
  destruct (run_callbacks_result b (api_sleep api n) fresh_frame
              (logged ([InstanceRequestAdapter i] ++ sleeps (S n)) p))
    as (Ha & Hflag & Hout).
  rewrite Ha, Hflag, Hout.
  destruct (api_sleep api n); [contradiction|].
  rewrite !orb_true_r. reflexivity.
Qed.

Lemma browser_request_sleeps_until_called_back_witness :
  requestAdapterSync browser
    (stub 5 [] (fun k => if Nat.eqb k 2 then [found 0 7 ""] else []) 1)
    3 5 adapterOpts start
  = (Returned 7%N,
     printed Dec ""
       (logged (InstanceRequestAdapter 5 :: sleeps 3) start)).
Proof.
  apply (browser_request_sleeps_until_called_back browser
           (stub 5 [] (fun k => if Nat.eqb k 2 then [found 0 7 ""] else []) 1)
           3 5 adapterOpts start 2).
  - reflexivity.
  - reflexivity.
  - intros j Hj. destruct j as [|[|j]]; [reflexivity | reflexivity | lia].
  - discriminate.
  - lia.
Defined.

(** X3: the polling loop has no timeout.  In the browser-hosted build a
    request whose callback is never run is still being polled after any
    number of sleeps: the call has neither returned nor aborted, it has
    slept that many times and written nothing. *)
Theorem browser_request_never_gives_up b api i o p :
  emscripten b = true ->
  api_request_adapter api i = [] ->
  (forall j, api_sleep api j = []) ->
  forall fuel,
    requestAdapterSync b api fuel i o p
    = (Waiting, logged (InstanceRequestAdapter i :: sleeps fuel) p).
Proof.
  intros Eb Hreq Hnone fuel.
  rewrite requestAdapterSync_browser by assumption. cbv zeta.
  rewrite Hreq, run_callbacks_nil. cbn [fst snd].
  rewrite wait_loop_idle by (assumption || reflexivity).
  cbn [fst snd]. now rewrite logged_logged.
Qed.

Lemma browser_request_never_gives_up_witness :
  requestAdapterSync browser (stub 5 [] (fun _ => []) 1) 40 5 adapterOpts
    start
  = (Waiting, logged (InstanceRequestAdapter 5 :: sleeps 40) start).
Proof.
  apply (browser_request_never_gives_up browser
           (stub 5 [] (fun _ => []) 1) 5 adapterOpts start);
    reflexivity.
Defined.

(** X4: when the implementation runs the callback inside the request
    call, once or several times, the call returns at once in every build
    (no sleep in the browser either).  The handle returned is the one of
    the last run that reported success, null when no run did: a run
    reporting a failure writes its line and leaves the stored handle
    alone. *)
Theorem request_answered_in_call b api fuel i o p :
  api_request_adapter api i <> [] ->
  requestAdapterSync b api fuel i o p
  = (Returned (last_success b (api_request_adapter api i) NULL),
     printed (basefield (cout p))
       (diagnostics b (api_request_adapter api i))
       (logged [InstanceRequestAdapter i] p)).
Proof.
  intros Hsome.
  destruct (run_callbacks_result b (api_request_adapter api i) fresh_frame
              (logged [InstanceRequestAdapter i] p)) as (Ha & Hflag & Hout).
  assert (Hset : requestEnded
                   (userData
                      (fst (run_callbacks b (api_request_adapter api i)
                              fresh_frame
                              (logged [InstanceRequestAdapter i] p))))
                 = true).
  { rewrite Hflag. destruct (api_request_adapter api i);
      [contradiction | reflexivity]. }
  destruct (emscripten b) eqn:Eb.
  - rewrite requestAdapterSync_browser by assumption. cbv zeta.
    rewrite wait_loop_done by assumption. cbn [fst snd].
    rewrite Hset, Ha, Hout, orb_true_r. reflexivity.
  - rewrite requestAdapterSync_native by assumption. cbv zeta.
    rewrite Hset, Ha, Hout, orb_true_r. reflexivity.
Qed.

Lemma request_answered_in_call_witness :
  requestAdapterSync browser
    (stub 5 [found 0 7 ""; found 3 9 "lost"] (fun _ => []) 1)
    4 5 adapterOpts start
  = (Returned 7%N,
     printed Dec ("Could not get WebGPU adapter: lost" ++ nl)
       (logged [InstanceRequestAdapter 5] start)).
Proof.
  apply (request_answered_in_call browser
           (stub 5 [found 0 7 ""; found 3 9 "lost"] (fun _ => []) 1)
           4 5 adapterOpts start).
  discriminate.
Defined.

(** X5: requestAdapterSync leaves the error stream alone and hands the
    output stream back in the number base it found it in, whatever the
    build, the implementation and the outcome: the line for a failed
    request goes to the output stream. *)
Theorem request_keeps_stream_state b api fuel i o p :
  cerr (snd (requestAdapterSync b api fuel i o p)) = cerr p
  /\ basefield (cout (snd (requestAdapterSync b api fuel i o p)))
     = basefield (cout p).
Proof.
  split; [|apply requestAdapterSync_keeps_base].
  destruct (body_spec b api fuel i o p) as (n & _ & _ & _ & Hcerr & _).
  unfold requestAdapterSync. rewrite bind_run.
  destruct (requestAdapterSync_body b api fuel i o p) as [[[| |] f] q];
    exact Hcerr.
Qed.

(** ** The inspector and its resources *)

(** X6: in every build inspectAdapter queries the handle it was given
    and no other, hands the identification record back exactly once, as
    its last call and after having obtained it, and neither releases a
    handle nor issues a request nor writes to the error stream. *)
Theorem inspector_resource_discipline b api a p :
  exists cs,
    calls (snd (inspectAdapter b api a p)) = (calls p ++ cs)%list
    /\ Forall (inspects a) cs
    /\ filter is_info_free cs = [AdapterInfoFreeMembers (api_info api a)]
    /\ last cs CreateInstance = AdapterInfoFreeMembers (api_info api a)
    /\ nth_error cs (List.length cs - 2) = Some (AdapterGetInfo a)
    /\ filter is_instance_release cs = []
    /\ filter is_adapter_release cs = []
    /\ filter is_request cs = []
    /\ cerr (snd (inspectAdapter b api a p)) = cerr p.
Proof.
  exists (inspect_calls b api a). rewrite inspectAdapter_run.
  cbn [snd calls cerr logged printed with_cout].
  unfold inspect_calls, feature_calls.
  destruct (emscripten b); cbn [app filter is_info_free is_instance_release
                                 is_adapter_release is_request last
                                 List.length Nat.sub nth_error];
    repeat split; repeat constructor.
Qed.

(** X7: inspectAdapter does not set the number base before the limits:
    entered with the stream in hexadecimal mode it writes the four limit
    values in hexadecimal (without prefix), the rest of the report being
    what it is in decimal mode. *)
Theorem limits_follow_the_stream_mode b api a p :
  limits_success b (fst (api_get_limits api a)) = true ->
  basefield (cout p) = Hex ->
  let l := snd (api_get_limits api a) in
  report_text b api a p
  = text (cout p)
    ++ unlines
         [ "Adapter limits:";
           " - maxTextureDimension1D: " ++ hex_digits (maxTextureDimension1D l);
           " - maxTextureDimension2D: " ++ hex_digits (maxTextureDimension2D l);
           " - maxTextureDimension3D: " ++ hex_digits (maxTextureDimension3D l);
           " - maxTextureArrayLayers: " ++ hex_digits (maxTextureArrayLayers l) ]
    ++ unlines (feature_lines (api_features api a))
    ++ unlines (info_lines (api_info api a)).
Proof.
  intros Hok Hhex. unfold report_text. rewrite inspectAdapter_run, Hok, Hhex.
  cbn [snd cout calls logged printed with_cout text].
  rewrite !unlines_app. reflexivity.
Qed.

Lemma limits_follow_the_stream_mode_witness :
  report_text dawn (stub 5 [] (fun _ => []) 1) 7
    (with_cout (cout start << std_hex) start)
  = ""
    ++ unlines
         [ "Adapter limits:";
           " - maxTextureDimension1D: " ++ "2000";
           " - maxTextureDimension2D: " ++ "2000";
           " - maxTextureDimension3D: " ++ "800";
           " - maxTextureArrayLayers: " ++ "100" ]
    ++ unlines (feature_lines [1; 42]%Z)
    ++ unlines (info_lines stub_info).
Proof.
  apply (limits_follow_the_stream_mode dawn (stub 5 [] (fun _ => []) 1) 7
           (with_cout (cout start << std_hex) start)); reflexivity.
Defined.

(** X8: the report does not depend on the build beyond the reading of the
    result of the limits query: two builds that agree on whether the query
    succeeded write the same text and leave both streams in the same
    state, the browser-hosted one filling its vector by two enumeration
    calls and the native ones reading the list of the implementation. *)
Theorem report_is_the_same_in_all_builds b1 b2 api a p :
  limits_success b1 (fst (api_get_limits api a))
  = limits_success b2 (fst (api_get_limits api a)) ->
  cout (snd (inspectAdapter b1 api a p))
  = cout (snd (inspectAdapter b2 api a p))
  /\ cerr (snd (inspectAdapter b1 api a p))
     = cerr (snd (inspectAdapter b2 api a p)).
Proof.
  intros Hsame. rewrite !inspectAdapter_run, Hsame. split; reflexivity.
Qed.

Lemma report_is_the_same_in_all_builds_witness :
  cout (snd (inspectAdapter browser (stub 5 [] (fun _ => []) 1) 7 start))
  = cout (snd (inspectAdapter dawn (stub 5 [] (fun _ => []) 1) 7 start))
  /\ cerr (snd (inspectAdapter browser (stub 5 [] (fun _ => []) 1) 7 start))
     = cerr (snd (inspectAdapter dawn (stub 5 [] (fun _ => []) 1) 7 start)).
Proof.
  apply (report_is_the_same_in_all_builds browser dawn
           (stub 5 [] (fun _ => []) 1) 7 start).
  reflexivity.
Defined.

(** ** Runs of the entry point *)

(** X9: on a native build, when the instance is created but the callback
    is not run inside the request call, the run depends on the assertion.
    Compiled in, it fails: [main] ends there after its first two output
    lines, the adapter is not inspected and the instance is never
    released.  With [NDEBUG], [main] goes on with the null handle: it
    inspects it, releases the instance and the null handle and exits with
    status 0. *)
Theorem main_when_not_called_back b api fuel :
  api_create_instance api <> NULL ->
  emscripten b = false ->
  api_request_adapter api (api_create_instance api) = [] ->
  (ndebug b = false ->
   main b api fuel start
   = (Abort,
      {| cout := {| basefield := Dec;
                    text := unlines
                      [ "WGPU instance: "
                          ++ show_pointer (api_create_instance api);
                        "Requesting adapter..." ] |};
         cerr := Stream.init;
         calls := [CreateInstance;
                   InstanceRequestAdapter (api_create_instance api)] |}))
  /\
  (ndebug b = true ->
   fst (main b api fuel start) = Exited 0
   /\ calls (snd (main b api fuel start))
      = (CreateInstance :: InstanceRequestAdapter (api_create_instance api)
         :: inspect_calls b api NULL
         ++ [InstanceRelease (api_create_instance api);
             AdapterRelease NULL])%list).
Proof.
  intros Hinst Eb Hnone. rewrite main_run by assumption. cbv zeta.
  rewrite requestAdapterSync_native by assumption. cbv zeta.
  rewrite Hnone, run_callbacks_nil. cbn [fst snd].
  split; intros En; rewrite En; cbn [orb fresh_frame userData fresh_userData
                                      requestEnded adapter fst snd].
  - reflexivity.
  - split; reflexivity.
Qed.

Lemma main_when_not_called_back_witness :
  main native (stub 5 [] (fun _ => [found 1 7 ""]) 1) 3 start
  = (Abort,
     {| cout := {| basefield := Dec;
                   text := unlines [ "WGPU instance: " ++ "0x5";
                                     "Requesting adapter..." ] |};
        cerr := Stream.init;
        calls := [CreateInstance; InstanceRequestAdapter 5] |})
  /\ fst (main native_ndebug (stub 5 [] (fun _ => [found 1 7 ""]) 1) 3 start)
     = Exited 0
  /\ calls (snd (main native_ndebug
                   (stub 5 [] (fun _ => [found 1 7 ""]) 1) 3 start))
     = [ CreateInstance; InstanceRequestAdapter 5;
         AdapterGetLimits NULL; AdapterGetFeatures NULL;
         SupportedFeaturesFreeMembers [1; 42]%Z;
         AdapterGetInfo NULL; AdapterInfoFreeMembers stub_info;
         InstanceRelease 5; AdapterRelease NULL ].
Proof.
  split.
  - apply (proj1 (main_when_not_called_back native
                    (stub 5 [] (fun _ => [found 1 7 ""]) 1) 3
                    ltac:(discriminate) eq_refl eq_refl)).
    reflexivity.
  - apply (proj2 (main_when_not_called_back native_ndebug
                    (stub 5 [] (fun _ => [found 1 7 ""]) 1) 3
                    ltac:(discriminate) eq_refl eq_refl)).
    reflexivity.
Defined.

(** X10: in the browser-hosted build, when the callback is never run,
    [main] is still polling after any number of sleeps: it has printed its
    first two lines, slept 100 ms that many times and released nothing. *)
Theorem main_polls_forever_when_never_called_back b api :
  api_create_instance api <> NULL ->
  emscripten b = true ->
  api_request_adapter api (api_create_instance api) = [] ->
  (forall j, api_sleep api j = []) ->
  forall fuel,
    main b api fuel start
    = (Hang,
       {| cout := {| basefield := Dec;
                     text := unlines
                       [ "WGPU instance: "
                           ++ show_pointer (api_create_instance api);
                         "Requesting adapter..." ] |};
          cerr := Stream.init;
          calls := CreateInstance
                   :: InstanceRequestAdapter (api_create_instance api)
                   :: sleeps fuel |}).
Proof.
  intros Hinst Eb Hreq Hnone fuel. rewrite main_run by assumption. cbv zeta.
  rewrite requestAdapterSync_browser by assumption. cbv zeta.
  rewrite Hreq, run_callbacks_nil. cbn [fst snd].
  rewrite wait_loop_idle by (assumption || reflexivity). reflexivity.
Qed.

Lemma main_polls_forever_when_never_called_back_witness :
  main browser (stub 5 [] (fun _ => []) 1) 25 start
  = (Hang,
     {| cout := {| basefield := Dec;
                   text := unlines [ "WGPU instance: " ++ "0x5";
                                     "Requesting adapter..." ] |};
        cerr := Stream.init;
        calls := CreateInstance :: InstanceRequestAdapter 5 :: sleeps 25 |}).
Proof.
  apply (main_polls_forever_when_never_called_back browser
           (stub 5 [] (fun _ => []) 1)); try reflexivity.
  discriminate.
Defined.

Lemma append_nil_l (s : string) : "" ++ s = s.
Proof. reflexivity. Qed.

Lemma no_request_in_inspection b api a :
  filter is_request (inspect_calls b api a) = [].
Proof.
  apply (filter_none _ is_inspection);
    [intros [] H; try discriminate; reflexivity
    | apply inspect_calls_are_inspection].
Qed.

(** X11: the releases of [main], over all its runs.  [main] exits with
    status 1 exactly when instance creation returned null.  A run that
    exits with status 0 ends with the release of the instance followed by
    the release of the adapter, each released once; a run that ends
    otherwise (status 1, failed assertion, still polling) has released
    nothing.  No run issues more than one adapter request. *)
Theorem main_releases_only_on_success b api fuel :
  let r := main b api fuel start in
  (fst r = Exited 1 <-> api_create_instance api = NULL)
  /\ (fst r = Exited 0 ->
      exists n h,
        calls (snd r) = run_calls b api n h
        /\ filter is_instance_release (calls (snd r))
           = [InstanceRelease (api_create_instance api)]
        /\ filter is_adapter_release (calls (snd r)) = [AdapterRelease h])
  /\ (fst r <> Exited 0 ->
      filter is_instance_release (calls (snd r)) = []
      /\ filter is_adapter_release (calls (snd r)) = [])
  /\ List.length (filter is_request (calls (snd r))) <= 1.
Proof.
  cbv zeta.
  destruct (N.eq_dec (api_create_instance api) NULL) as [Hnull | Hinst].
  - rewrite main_run_null by assumption. cbn [fst snd calls start app filter
                                               is_instance_release
                                               is_adapter_release is_request
                                               List.length].
    split; [split; auto|]. split; [discriminate|].
    split; [auto | lia].
  - rewrite main_run by assumption. cbv zeta.
    destruct (requestAdapterSync_calls b api fuel (api_create_instance api)
                adapterOpts (before_request api start))
      as (n & _ & _ & Hcalls).
    destruct (requestAdapterSync b api fuel (api_create_instance api)
                adapterOpts (before_request api start))
      as [[h| |] q] eqn:Hreq; cbn [fst snd] in *.
    + destruct (main_returned b api fuel h q Hinst Hreq)
        as (_ & k & _ & _ & Hrun).
      rewrite Hrun. destruct (run_calls_releases b api k h) as [Hi Ha].
      split; [split; [discriminate | contradiction]|].
      split; [intros _; exists k, h; auto|].
      split; [intros H; now contradiction H|].
      unfold run_calls. cbn [filter is_request].
      rewrite !filter_app, no_request_in_sleeps, no_request_in_inspection.
      cbn. lia.
    + rewrite Hcalls. cbn [before_request logged printed with_cout calls start
                            app filter is_instance_release is_adapter_release
                            is_request].
      rewrite !filter_sleeps by reflexivity.
      split; [split; [discriminate | contradiction]|].
      split; [discriminate|]. split; [auto|]. cbn. lia.
    + rewrite Hcalls. cbn [before_request logged printed with_cout calls start
                            app filter is_instance_release is_adapter_release
                            is_request].
      rewrite !filter_sleeps by reflexivity.
      split; [split; [discriminate | contradiction]|].
      split; [discriminate|]. split; [auto|]. cbn. lia.
Qed.

Lemma main_releases_only_on_success_witness :
  filter is_instance_release
    (calls (snd (main native (stub 5 [] (fun _ => []) 1) 2 start))) = []
  /\ filter is_adapter_release
       (calls (snd (main native (stub 5 [] (fun _ => []) 1) 2 start))) = []
  /\ exists n h,
       calls (snd (main browser
                     (stub 5 [] (fun k => [found 0 7 ""]) 1) 2 start))
       = run_calls browser (stub 5 [] (fun k => [found 0 7 ""]) 1) n h
       /\ filter is_instance_release
            (calls (snd (main browser
                           (stub 5 [] (fun k => [found 0 7 ""]) 1) 2 start)))
          = [InstanceRelease 5]
       /\ filter is_adapter_release
            (calls (snd (main browser
                           (stub 5 [] (fun k => [found 0 7 ""]) 1) 2 start)))
          = [AdapterRelease h].
Proof.
  destruct (main_releases_only_on_success native
              (stub 5 [] (fun _ => []) 1) 2) as (_ & _ & Hnone & _).
  destruct (main_releases_only_on_success browser
              (stub 5 [] (fun k => [found 0 7 ""]) 1) 2) as (_ & Hdone & _).
  destruct (Hnone ltac:(discriminate)) as [Hi Ha].
  split; [exact Hi|]. split; [exact Ha|]. exact (Hdone eq_refl).
Defined.

(** X12: the whole output of a run in which the instance is created and
    the request is answered by one callback: the two opening lines, the
    line of the failed request when the callback reported a failure, the
    handle obtained (null in that case), then the report on that handle
    with its limits in decimal.  Nothing goes to the error stream and the
    exit status is 0 in both cases. *)
Theorem main_output b api fuel n args :
  api_create_instance api <> NULL ->
  (emscripten b = false -> n = 0) ->
  n <= fuel ->
  callbacks_until api (api_create_instance api) n = [args] ->
  let ok := (cb_status args =? WGPURequestAdapterStatus_Success b)%Z in
  let h := if ok then cb_adapter args else NULL in
  let r := main b api fuel start in
  fst r = Exited 0
  /\ text (cerr (snd r)) = ""
  /\ text (cout (snd r))
     = unlines
         ([ "WGPU instance: " ++ show_pointer (api_create_instance api);
            "Requesting adapter..." ]
          ++ (if ok
              then []
              else ["Could not get WebGPU adapter: " ++ cb_message args])
          ++ [ "Got adapter: " ++ show_pointer h ]
          ++ (if limits_success b (fst (api_get_limits api h))
              then limits_lines Dec (snd (api_get_limits api h))
              else [])
          ++ feature_lines (api_features api h)
          ++ info_lines (api_info api h)).
Proof.
  intros Hinst Hnat Hfuel Hone. cbv zeta.
  destruct (request_outcome b api fuel (api_create_instance api) adapterOpts
              (before_request api start) n args Hnat Hfuel Hone)
    as (m & _ & Heq).
  destruct (cb_status args =? WGPURequestAdapterStatus_Success b)%Z;
    destruct (main_returned b api fuel _ _ Hinst Heq) as (-> & _);
    cbn [fst snd]; (split; [reflexivity|]); (split; [reflexivity|]);
    unfold after_request, before_request;
    cbn [cout cerr calls logged printed with_cout text basefield start
         Stream.init];
    unfold diagnostic;
    repeat (progress (rewrite ?unlines_app; cbn [unlines app];
                      rewrite ?append_assoc, ?append_nil_r, ?append_nil_l));
    reflexivity.
Qed.

Lemma main_output_witness :
  let r := main dawn (stub 5 [found 3 9 "no adapter"] (fun _ => []) 2)
             0 start in
  fst r = Exited 0
  /\ text (cerr (snd r)) = ""
  /\ text (cout (snd r))
     = unlines
         ([ "WGPU instance: " ++ "0x5"; "Requesting adapter..." ]
          ++ ["Could not get WebGPU adapter: " ++ "no adapter"]
          ++ [ "Got adapter: " ++ "0" ]
          ++ []
          ++ feature_lines [1; 42]%Z
          ++ info_lines stub_info).
Proof.
  apply (main_output dawn (stub 5 [found 3 9 "no adapter"] (fun _ => []) 2)
           0 0 (found 3 9 "no adapter")).
  - discriminate.
  - reflexivity.
  - lia.
  - reflexivity.
Defined.
